(** * dynamic-react-editor.js: a shallow embedding of the editor session

    The component keeps one state object, replaced as a whole by
    [updateState]; its handlers are asynchronous functions that call the
    compiler loader, the compiler, the sandbox and the assistant endpoint.
    The embedding keeps that shape: a record for the state object, a small
    state-and-exception monad over the component's world (state object, refs,
    document head, issued requests), and one definition per handler of the
    source file, under the handler's name.  Everything that lives outside the
    file (script loading, Babel, the JavaScript engine, the network) is a
    field of a [Host] record handed to the handler.

    A handler reads [state] as the render that created it saw it, which is
    the state at the moment it is called, and every write goes through
    [updateState], which merges into the latest state.  An asynchronous
    handler is run to its end in one piece, its awaits answered by the host;
    the loader is also given in its parts (the call, [onload], [onerror]) so
    that calls can overlap. *)

From Stdlib Require Import ZArith NArith Ascii String DecimalString.
From Stdlib.Strings Require Import Byte.
From stdpp Require Import base list strings gmap.

Local Open Scope N_scope.

(** ** JavaScript strings

    A JavaScript string is a sequence of UTF-16 code units. *)

Definition JSString := list N.

Definition str (s : string) : JSString :=
  map N_of_ascii (list_ascii_of_string s).

(** [`${n}`] for an integer [n]. *)
Definition decimal (n : Z) : JSString :=
  str (NilZero.string_of_int (Z.to_int n)).

(** WhiteSpace and LineTerminator code units, the ones [trim] removes. *)
Definition isWhiteSpace (c : N) : bool :=
  (9 <=? c) && (c <=? 13) || (c =? 32) || (c =? 160) || (c =? 5760)
  || (8192 <=? c) && (c <=? 8202) || (c =? 8232) || (c =? 8233)
  || (c =? 8239) || (c =? 8287) || (c =? 12288) || (c =? 65279).

Fixpoint trimStart (s : JSString) : JSString :=
  match s with
  | c :: t => if isWhiteSpace c then trimStart t else s
  | [] => []
  end.

Definition trimEnd (s : JSString) : JSString := rev (trimStart (rev s)).

Definition trim (s : JSString) : JSString := trimEnd (trimStart s).

Fixpoint startsWith (s p : JSString) : bool :=
  match p, s with
  | [], _ => true
  | c :: p', d :: s' => (c =? d) && startsWith s' p'
  | _ :: _, [] => false
  end.

(** A string is truthy when it is not empty. *)
Definition truthy (s : JSString) : bool :=
  match s with [] => false | _ :: _ => true end.

(** ** [new TextDecoder().decode(value)]

    The platform decoder for UTF-8 in replacement mode: a malformed or
    truncated sequence becomes U+FFFD, the byte that broke a sequence is
    read again as the start of the next one, the end of the input closes an
    unfinished sequence with U+FFFD, and one leading byte order mark is
    dropped.  A fresh decoder starts in [initial]. *)

Module TextDecoder.

Record Decoder := mkDecoder {
  codePoint : N;
  bytesSeen : N;
  bytesNeeded : N;
  lowerBoundary : N;
  upperBoundary : N }.

Definition initial : Decoder := mkDecoder 0 0 0 128 191.

(** A byte read while no sequence is open. *)
Definition lead (b : N) : list N * Decoder :=
  if b <=? 127 then ([b], initial)
  else if (194 <=? b) && (b <=? 223) then
    ([], mkDecoder (N.land b 31) 0 1 128 191)
  else if (224 <=? b) && (b <=? 239) then
    ([], mkDecoder (N.land b 15) 0 2
           (if b =? 224 then 160 else 128) (if b =? 237 then 159 else 191))
  else if (240 <=? b) && (b <=? 244) then
    ([], mkDecoder (N.land b 7) 0 3
           (if b =? 240 then 144 else 128) (if b =? 244 then 143 else 191))
  else ([65533], initial).

(** A byte read inside a sequence. *)
Definition handler (d : Decoder) (b : N) : list N * Decoder :=
  if bytesNeeded d =? 0 then lead b
  else if (lowerBoundary d <=? b) && (b <=? upperBoundary d) then
    let cp := N.lor (N.shiftl (codePoint d) 6) (N.land b 63) in
    let seen := bytesSeen d + 1 in
    if seen =? bytesNeeded d then ([cp], initial)
    else ([], mkDecoder cp seen (bytesNeeded d) 128 191)
  else
    let '(out, d') := lead b in (65533 :: out, d').

Fixpoint run (d : Decoder) (bytes : list N) : list N :=
  match bytes with
  | [] => if bytesNeeded d =? 0 then [] else [65533]
  | b :: rest => let '(out, d') := handler d b in out ++ run d' rest
  end.

Definition dropBOM (cps : list N) : list N :=
  match cps with
  | cp :: rest => if cp =? 65279 then rest else cps
  | [] => []
  end.

(** Scalar values above the basic plane take a surrogate pair. *)
Definition codeUnits (cp : N) : JSString :=
  if cp <? 65536 then [cp]
  else let v := cp - 65536 in
       [55296 + N.shiftr v 10; 56320 + N.land v 1023].

Definition decode (value : list Byte.byte) : JSString :=
  concat (map codeUnits (dropBOM (run initial (map Byte.to_N value)))).

End TextDecoder.

(** ** The state object of [MainComponent] *)

Module Status.
(** [loadingStatus] is one of "idle", "loading", "ready", "error". *)
Inductive t := idle | loading | ready | error.

#[global] Instance eq_dec : EqDecision t.
Proof. solve_decision. Defined.
End Status.

(** The values a sandboxed script can leave in [module.exports]; an object
    is known by its own keys, a function by its name. *)
Inductive JSValue :=
| JSUndefined
| JSNull
| JSBool (b : bool)
| JSNum (n : Z)
| JSStr (s : JSString)
| JSObj (ownKeys : list JSString)
| JSFun (name : JSString).

(** What [React.createElement(type, props)] returns.  The call validates
    nothing by throwing; its result is told here by the two arguments of the
    call that made it.  How React lays them out inside the element (the
    reserved properties, [key] above all, are taken out of the properties)
    is not told apart. *)
Record Element := mkElement {
  type : JSValue;
  props : list (JSString * JSValue) }.

Definition createElement (type : JSValue) (props : list (JSString * JSValue))
  : Element := mkElement type props.

Record State := mkState {
  error : option JSString;          (* null or a message *)
  loadingStatus : Status.t;
  preview : option Element;         (* null or an element *)
  code : JSString;
  streamingResponse : JSString;
  aiPrompt : JSString;
  isUpdating : bool;
  retryCount : Z;
  customPrompts : list JSString;
  history : list JSString }.

(** One [key: value] of an object literal handed to [updateState]. *)
Inductive Property :=
| p_error (v : option JSString)
| p_loadingStatus (v : Status.t)
| p_preview (v : option Element)
| p_code (v : JSString)
| p_streamingResponse (v : JSString)
| p_aiPrompt (v : JSString)
| p_isUpdating (v : bool)
| p_retryCount (v : Z)
| p_customPrompts (v : list JSString)
| p_history (v : list JSString).

Definition assign (s : State) (p : Property) : State :=
  match p with
  | p_error v =>
      mkState v (loadingStatus s) (preview s) (code s)
        (streamingResponse s) (aiPrompt s) (isUpdating s)
        (retryCount s) (customPrompts s) (history s)
  | p_loadingStatus v =>
      mkState (error s) v (preview s) (code s)
        (streamingResponse s) (aiPrompt s) (isUpdating s)
        (retryCount s) (customPrompts s) (history s)
  | p_preview v =>
      mkState (error s) (loadingStatus s) v (code s)
        (streamingResponse s) (aiPrompt s) (isUpdating s)
        (retryCount s) (customPrompts s) (history s)
  | p_code v =>
      mkState (error s) (loadingStatus s) (preview s) v
        (streamingResponse s) (aiPrompt s) (isUpdating s)
        (retryCount s) (customPrompts s) (history s)
  | p_streamingResponse v =>
      mkState (error s) (loadingStatus s) (preview s) (code s)
        v (aiPrompt s) (isUpdating s)
        (retryCount s) (customPrompts s) (history s)
  | p_aiPrompt v =>
      mkState (error s) (loadingStatus s) (preview s) (code s)
        (streamingResponse s) v (isUpdating s)
        (retryCount s) (customPrompts s) (history s)
  | p_isUpdating v =>
      mkState (error s) (loadingStatus s) (preview s) (code s)
        (streamingResponse s) (aiPrompt s) v
        (retryCount s) (customPrompts s) (history s)
  | p_retryCount v =>
      mkState (error s) (loadingStatus s) (preview s) (code s)
        (streamingResponse s) (aiPrompt s) (isUpdating s)
        v (customPrompts s) (history s)
  | p_customPrompts v =>
      mkState (error s) (loadingStatus s) (preview s) (code s)
        (streamingResponse s) (aiPrompt s) (isUpdating s)
        (retryCount s) v (history s)
  | p_history v =>
      mkState (error s) (loadingStatus s) (preview s) (code s)
        (streamingResponse s) (aiPrompt s) (isUpdating s)
        (retryCount s) (customPrompts s) v
  end.

(** The argument of [updateState]: the callers pass an object literal
    (lines 82, 91, 95, 118, 141, 146, 155, 159, 212, 219, 227, 233, 312,
    335, 338) or an arrow function (lines 206 and 254). *)
Inductive Updates :=
| Obj (properties : list Property)
| Fn (updater : State → list Property).

(** The own enumerable properties that [...updates] copies.  An object
    literal gives its properties; a function object has none ([length] and
    [name] are not enumerable), and the spread never calls it. *)
Definition ownEnumerable (updates : Updates) : list Property :=
  match updates with
  | Obj properties => properties
  | Fn _ => []
  end.

(** [(prev) => ({ ...prev, ...updates })], line 76. *)
Definition spread (prev : State) (updates : Updates) : State :=
  foldl assign prev (ownEnumerable updates).

(** ** The world of one component instance *)

(** How a call ends.  A thrown value is told by what [err.message]
    reads on it in a template literal: the message of an Error, or the text
    "undefined" for a value without that property.  Only [null] and
    [undefined] have no properties to read; the sandboxed script is the one
    place they can be thrown. *)
Inductive Nullish := null | undefined.

Inductive Completion (A : Type) :=
| Normal (a : A)
| Throw (message : JSString)
| ThrowNullish (value : Nullish).
Arguments Normal {A} a.
Arguments Throw {A} message.
Arguments ThrowNullish {A} value.

(** The TypeError of [err.message] on a nullish [err]. *)
Definition cannotRead (value : Nullish) : JSString :=
  str "Cannot read properties of "
    ++ match value with null => str "null" | undefined => str "undefined" end
    ++ str " (reading 'message')".

Record TransformOptions := mkOptions {
  presets : list JSString;
  filename : JSString;
  sourceType : JSString }.

(** [Babel.transform(source, options).code], or the compiler's diagnostic. *)
Definition Babel := JSString → TransformOptions → Completion JSString.

(** What the component does, in order: script elements appended to
    [document.head], requests issued with [fetch], and, to count render
    cycles, the calls of [renderComponent]. *)
Inductive Effect :=
| AppendScript (src : JSString)
| Fetch (url : JSString) (messages : list (JSString * JSString))
| RenderComponent.

Record World := mkWorld {
  state : State;
  babel : option Babel;                   (* refs.babel.current *)
  babelLoaded : bool;                     (* refs.babelLoaded.current *)
  localStorage : option (list JSString);  (* the item "customPrompts" *)
  trace : list Effect }.

Record Module := mkModule { exports : JSValue }.

Inductive Response :=
| NetworkFault (message : JSString)
| HttpResponse (ok : bool) (status : Z)
    (chunks : list (list Byte.byte)) (readFault : option JSString).

(** The collaborators outside the file, as they answer during one
    handler run. *)
Record Host := mkHost {
  env_BABEL_CDN_URL : option JSString;   (* process.env.BABEL_CDN_URL *)
  scriptLoads : bool;                    (* onload (true) or onerror *)
  windowBabel : option Babel;            (* window.Babel once the script ran *)
  invoke : JSString → Module → Completion Module;
    (* new Function("React", "useState", "exports", "module", body)
         (React, useState, module.exports, module) *)
  parse : JSString → Completion unit;    (* new Function(code) *)
  respond : Response;                    (* the answer to fetch *)
  setItem : list JSString → Completion unit }.
    (* localStorage.setItem("customPrompts", JSON.stringify(list)) *)

(** Handlers run in a state monad over [World] with exceptions. *)
Definition M (A : Type) : Type := World → Completion A * World.

#[export] Instance M_ret : MRet M := λ A a w, (Normal a, w).

#[export] Instance M_bind : MBind M := λ A B f m w,
  match m w with
  | (Normal a, w') => f a w'
  | (Throw e, w') => (Throw e, w')
  | (ThrowNullish v, w') => (ThrowNullish v, w')
  end.

Definition throw {A} (message : JSString) : M A := λ w, (Throw message, w).

Definition lift {A} (c : Completion A) : M A := λ w, (c, w).

(** [try { body } catch (err) { handler }], for the four handlers of the
    file that read [err.message] before anything else (lines 119, 147, 213
    and 220): on a nullish [err] that reading throws, and the handler ends
    there. *)
Definition tryCatch {A} (body : M A) (handler : JSString → M A) : M A :=
  λ w, match body w with
       | (Normal a, w') => (Normal a, w')
       | (Throw e, w') => handler e w'
       | (ThrowNullish v, w') => (Throw (cannotRead v), w')
       end.

Definition getState : M State := λ w, (Normal (state w), w).

Definition emit (e : Effect) : M unit := λ w,
  (Normal (), mkWorld (state w) (babel w) (babelLoaded w) (localStorage w)
                (trace w ++ [e])).

(** [updateState], lines 75-77. *)
Definition updateState (updates : Updates) : M unit := λ w,
  (Normal (), mkWorld (spread (state w) updates) (babel w) (babelLoaded w)
                (localStorage w) (trace w)).

(** The world after a handler ran, and what it did. *)
Definition exec {A} (m : M A) (w : World) : World := (m w).2.
Definition after {A} (m : M A) (w : World) : State := state (exec m w).

(** ** Module constants and component properties *)

Definition dq : JSString := [34].

Definition SYSTEM_PROMPT : JSString :=
  str "You are a code assistant. Follow these guidelines when responding:
1. Always return only the updated code, and avoid providing any explanations or extra text unless explicitly asked.
2. Use the syntax " ++ dq ++ str "module.exports = ComponentName;" ++ dq
  ++ str " at the end of the code. Do not use " ++ dq ++ str "export default"
  ++ dq ++ str ".
3. Ensure the code is properly formatted and can be used directly in a Node.js/React environment.
4. Do not wrap the code in triple backticks unless explicitly requested by the user.
5. Respond with concise, minimal updates based on the user prompt.
6. If the user requests code modifications, return the full code with changes applied, formatted correctly for use.".

Definition MAX_RETRIES : Z := 5.

Definition BABEL_CDN_URL (h : Host) : JSString :=
  let fallback :=
    str "https://cdnjs.cloudflare.com/ajax/libs/babel-standalone/7.26.1/babel.min.js" in
  match env_BABEL_CDN_URL h with
  | Some url => if truthy url then url else fallback
  | None => fallback
  end.

Record ComponentProps := mkProps {
  initialCode : JSString;
  previewProps : list (JSString * JSValue);
  noInlineStyles : bool }.

(** The argument of [useState], lines 51-68; [stored] is the list that
    [JSON.parse(localStorage.getItem("customPrompts"))] yields, [None] when
    the item is missing, malformed or falsy.  The item is taken to be what
    line 232 writes, a list of strings; any other truthy value would become
    [customPrompts] as it is, and the component is not followed from such a
    start. *)
Definition initialState (p : ComponentProps) (stored : option (list JSString))
  : State :=
  mkState None Status.idle None (initialCode p) [] [] false 0%Z
    (default [] stored) [].

Definition mount (p : ComponentProps) (stored : option (list JSString))
  : World :=
  mkWorld (initialState p stored) None false stored [].

(** ** TranspilerLoader: [loadBabel], lines 79-103 *)

Inductive Promise := Resolved | Pending.

Definition isSome {A} (o : option A) : bool :=
  match o with Some _ => true | None => false end.

(** The synchronous part of a call: the guard, the status update and the
    script element appended to the head. *)
Definition loadBabel (h : Host) : M Promise := λ w,
  if babelLoaded w && isSome (babel w) then (Normal Resolved, w)
  else
    (updateState (Obj [p_loadingStatus Status.loading]);;
     emit (AppendScript (BABEL_CDN_URL h));;
     mret Pending) w.

(** [script.onload], lines 88-93. *)
Definition onload (h : Host) : M unit := λ w,
  updateState (Obj [p_loadingStatus Status.idle])
    (mkWorld (state w) (windowBabel h) true (localStorage w) (trace w)).

(** [script.onerror], lines 94-100; the promise is then rejected with
    [failedToLoad]. *)
Definition failedToLoad : JSString := str "Failed to load Babel".

Definition onerror : M unit :=
  updateState (Obj [p_error (Some failedToLoad);
                    p_loadingStatus Status.error]).

(** [await loadBabel()] when no other handler runs in between. *)
Definition await_loadBabel (h : Host) : M unit :=
  promise ← loadBabel h;
  match promise with
  | Resolved => mret ()
  | Pending =>
      if scriptLoads h then onload h else (onerror;; throw failedToLoad)
  end.

(** ** Transpiler: [transpileCode], lines 105-126 *)

Definition isLineTerminator (c : N) : bool :=
  (c =? 10) || (c =? 13) || (c =? 8232) || (c =? 8233).

(** [.*?\}\}]: the units taken by the shortest run of characters other
    than line terminators that is followed by two closing braces. *)
Fixpoint lazyUntilClose (s : JSString) : option nat :=
  if startsWith s (str "}}") then Some 2%nat
  else match s with
       | c :: t => if isLineTerminator c then None
                   else S <$> lazyUntilClose t
       | [] => None
       end.

(** The length of a match of [/style=\{\{.*?\}\}/] at the head of [s]. *)
Definition matchStyle (s : JSString) : option nat :=
  if startsWith s (str "style={{")
  then (λ n, 8 + n)%nat <$> lazyUntilClose (drop 8 s)
  else None.

(** [.replace(/style=\{\{.*?\}\}/g, "")]; [skip] units of a match are
    still to be dropped. *)
Fixpoint replaceStyle (skip : nat) (s : JSString) : JSString :=
  match s with
  | [] => []
  | c :: t =>
      match skip with
      | S k => replaceStyle k t
      | O => match matchStyle s with
             | Some n => replaceStyle (n - 1) t
             | None => c :: replaceStyle 0 t
             end
      end
  end.

Definition transformOptions : TransformOptions :=
  mkOptions [str "react"] (str "preview.jsx") (str "module").

Definition transpileCode (h : Host) (p : ComponentProps)
    (currentCode : JSString) : M (option JSString) :=
  tryCatch
    (await_loadBabel h;;
     let transformedCode :=
       if noInlineStyles p then replaceStyle 0 currentCode else currentCode in
     current ← (λ w, (Normal (babel w), w));
     match current with
     | Some transform =>
         compiled ← lift (transform transformedCode transformOptions);
         mret (Some compiled)
     | None =>
         throw (str "Cannot read properties of undefined (reading 'transform')")
     end)
    (λ message,
       updateState (Obj [p_error
                           (Some (str "Error during transpilation: " ++ message));
                         p_loadingStatus Status.error]);;
       mret None).

(** ** SandboxExecutor and the render cycle: [renderComponent],
    lines 128-151 *)

Definition renderComponent (h : Host) (p : ComponentProps) : M unit :=
  emit RenderComponent;;
  s ← getState;
  transpiledCode ← transpileCode h p (code s);
  match transpiledCode with
  | None => mret ()
  | Some body =>
      if negb (truthy body) then mret ()
      else
        tryCatch
          (module ← lift (invoke h body (mkModule (JSObj [])));
           let Component := exports module in
           updateState (Obj [p_preview
                               (Some (createElement Component (previewProps p)));
                             p_loadingStatus Status.ready]))
          (λ message,
             updateState (Obj [p_error
                                 (Some (str "Runtime error: " ++ message));
                               p_loadingStatus Status.error]))
  end.

(** ** SuggestionClient and submission: [updateWithAI], lines 153-224 *)

Definition endpoint : JSString := str "/integrations/anthropic-claude-sonnet-3-5/".

(** The [messages] of the request body, lines 168-174. *)
Definition messages (s : State) : list (JSString * JSString) :=
  [ (str "system", SYSTEM_PROMPT);
    (str "user",
     str "Modify this React code: " ++ dq ++ aiPrompt s ++ dq
       ++ str ". Code:" ++ [10; 10] ++ code s) ].

(** The loop of lines 186-190: each chunk goes through a decoder of its
    own and is appended to [aiResponse]. *)
Fixpoint accumulate (aiResponse : JSString) (chunks : list (list Byte.byte))
  : JSString :=
  match chunks with
  | [] => aiResponse
  | value :: rest => accumulate (aiResponse ++ TextDecoder.decode value) rest
  end.

(** [isValidJavaScript], lines 236-243. *)
Definition isValidJavaScript (h : Host) (code : JSString) : bool :=
  match parse h code with
  | Normal _ => true
  | Throw _ => false
  | ThrowNullish _ => false
  end.

Definition updateWithAI (h : Host) : M unit :=
  s ← getState;
  if negb (truthy (trim (aiPrompt s))) then
    updateState (Obj [p_error (Some (str "Please enter a prompt for the AI"))])
  else
    updateState (Obj [p_isUpdating true; p_error None]);;
    tryCatch
      (emit (Fetch endpoint (messages s));;
       match respond h with
       | NetworkFault message => throw message
       | HttpResponse ok status chunks readFault =>
           if negb ok then
             throw (str "AI API responded with status " ++ decimal status)
           else
             let aiResponse := accumulate [] chunks in
             match readFault with
             | Some message => throw message
             | None =>
                 if startsWith (trim aiResponse) (str "<") then
                   throw (str "Received HTML instead of JavaScript. There may be a server issue.")
                 else
                   tryCatch
                     ((if isValidJavaScript h aiResponse
                       then lift (parse h aiResponse)
                       else throw (str "Invalid JavaScript code"));;
                      updateState
                        (Fn (λ prevState,
                               [p_code (trim aiResponse);
                                p_isUpdating false;
                                p_history (history prevState ++ [code prevState])])))
                     (λ message,
                        updateState
                          (Obj [p_error
                                  (Some (str "AI response contains invalid JavaScript code: "
                                           ++ message
                                           ++ str ". Try refining the prompt."));
                                p_loadingStatus Status.error;
                                p_isUpdating false]))
             end
       end)
      (λ message,
         updateState (Obj [p_error (Some (str "AI update failed: " ++ message));
                           p_isUpdating false])).

(** ** The remaining handlers of the session *)

(** The function handed to [debounce], lines 226-228. *)
Definition commitPrompt (value : JSString) : M unit :=
  updateState (Obj [p_aiPrompt value]).

(** [saveCustomPrompt], lines 230-234.  Nothing catches what [setItem]
    throws (a full or disabled store): the handler then ends at line 232. *)
Definition saveCustomPrompt (h : Host) : M unit :=
  s ← getState;
  let newPrompts := customPrompts s ++ [aiPrompt s] in
  lift (setItem h newPrompts);;
  (λ w, (Normal (), mkWorld (state w) (babel w) (babelLoaded w)
                      (Some newPrompts) (trace w)));;
  updateState (Obj [p_customPrompts newPrompts]).

(** [undoLastChange], lines 251-259. *)
Definition undoLastChange : M unit :=
  s ← getState;
  if (0 <? length (history s))%nat then
    match history s !! (length (history s) - 1)%nat with
    | Some lastCode =>
        updateState
          (Fn (λ prevState,
                 [p_code lastCode;
                  p_history (take (length (history prevState) - 1)
                               (history prevState))]))
    | None => mret ()
    end
  else mret ().

(** The [onChange] of the text area, line 312. *)
Definition editCode (value : JSString) : M unit :=
  updateState (Obj [p_code value]).

(** The condition of the effect, lines 262-266. *)
Definition renderTrigger (s : State) : bool :=
  bool_decide (loadingStatus s = Status.idle)
  && truthy (trim (code s)) && negb (isUpdating s).

(** The effect of lines 261-269, run after an update of its dependencies. *)
Definition renderEffect (h : Host) (p : ComponentProps) : M unit :=
  s ← getState;
  if renderTrigger s then renderComponent h p else mret ().

(** [handleRetry], lines 333-340. *)
Definition handleRetry (h : Host) (p : ComponentProps) : M unit :=
  s ← getState;
  if (retryCount s <? MAX_RETRIES)%Z then
    updateState (Obj [p_retryCount (retryCount s + 1)%Z]);;
    renderComponent h p
  else
    updateState (Obj [p_retryCount 0%Z]).

(** The content of the preview panel, lines 327-344. *)
Inductive Panel :=
| LoadingContent (status : Status.t)
| ErrorContent (error : JSString)
| Preview (preview : option Element).

Definition panel (s : State) : Panel :=
  if bool_decide (loadingStatus s ≠ Status.ready)
     && bool_decide (loadingStatus s ≠ Status.error)
  then LoadingContent (loadingStatus s)
  else match error s with
       | Some message =>
           if truthy message then ErrorContent message else Preview (preview s)
       | None => Preview (preview s)
       end.

(** ** Names in scope at the declaration of [debouncedOnChange]

    Line 226 is [useCallback(debounce((value) => {...}, 300), [])].  An
    identifier is resolved through the scopes of the file: the body of the
    component, the module, and the global object of the host. *)

Module Scope.

#[warnings="-register-all"]
Inductive Expr :=
| Ident (name : string)
| Call (callee : Expr) (arguments : list Expr)
| Arrow (body : list string)     (* evaluates to a closure *)
| Literal.

(** The identifiers looked up while an expression is evaluated, in
    order: the callee, then the arguments from left to right.  The body of
    an arrow function is not entered. *)
Fixpoint references (e : Expr) : list string :=
  match e with
  | Ident name => [name]
  | Call callee arguments =>
      references callee ++ concat (map references arguments)
  | Arrow _ => []
  | Literal => []
  end.

Definition imports : list string :=
  ["React"; "useState"; "useEffect"; "useCallback"; "useRef"]%string.

Definition moduleScope : list string :=
  ["SYSTEM_PROMPT"; "examples"; "MAX_RETRIES"; "BABEL_CDN_URL";
   "MainComponent"; "LoadingContent"; "ErrorContent";
   "StoryComponent"]%string.

Definition componentScope : list string :=
  ["initialCode"; "previewProps"; "noInlineStyles"; "state"; "setState";
   "refs"; "updateState"; "loadBabel"; "transpileCode"; "renderComponent";
   "updateWithAI"; "debouncedOnChange"; "saveCustomPrompt";
   "isValidJavaScript"; "commonPrompts"; "undoLastChange"]%string.

(** The names of the host that the file uses. *)
Definition usedGlobals : list string :=
  ["process"; "localStorage"; "JSON"; "Promise"; "document"; "window";
   "fetch"; "Error"; "TextDecoder"; "Function"; "module"]%string.

Definition bound (globals : gset string) : gset string :=
  list_to_set (componentScope ++ moduleScope ++ imports) ∪ globals.

(** Evaluation stops at the first unresolvable reference. *)
Definition evaluate (globals : gset string) (e : Expr) : Completion unit :=
  match filter (λ name, name ∉ bound globals) (references e) with
  | [] => Normal ()
  | name :: _ =>
      Throw (str name ++ str " is not defined")
  end.

(** The initializer of [debouncedOnChange], lines 226-228. *)
Definition debouncedOnChange : Expr :=
  Call (Ident "useCallback")
    [Call (Ident "debounce") [Arrow ["updateState"; "value"]%string; Literal];
     Literal].

End Scope.

(** ** The session as a transition system

    One step is one handler run to completion against some host, or a
    write to the stored item by someone else: the store is shared, and
    [StoryComponent] (lines 376-387) mounts two components on the one key. *)

Section Session.

Variable p : ComponentProps.

Inductive step : World → World → Prop :=
| step_edit value w :
    step w (exec (editCode value) w)
| step_prompt value w :
    step w (exec (commitPrompt value) w)
| step_submit h w :
    isUpdating (state w) = false →            (* the button is disabled *)
    step w (exec (updateWithAI h) w)
| step_save h w :
    step w (exec (saveCustomPrompt h) w)
| step_undo w :
    step w (exec undoLastChange w)
| step_retry h w message :
    panel (state w) = ErrorContent message →  (* Retry is on that panel *)
    step w (exec (handleRetry h p) w)
| step_effect h w :
    step w (exec (renderEffect h p) w)
| step_storage item w :                       (* another writer of the key *)
    step w (mkWorld (state w) (babel w) (babelLoaded w) item (trace w)).

Definition reachable (stored : option (list JSString)) (w : World) : Prop :=
  rtc step (mount p stored) w.

End Session.

(** Calls of [renderComponent] and script elements appended so far. *)
Definition isRenderComponent (e : Effect) : bool :=
  match e with RenderComponent => true | _ => false end.

Definition isAppendScript (e : Effect) : bool :=
  match e with AppendScript _ => true | _ => false end.

Definition renders (w : World) : nat :=
  length (List.filter isRenderComponent (trace w)).

Definition fetches (w : World) : nat :=
  length (List.filter isAppendScript (trace w)).

(** ** Concrete hosts and worlds used to run the handlers *)

Module Run.

Definition bytes (s : string) : list Byte.byte := list_byte_of_string s.

(** A compiler that has nothing to rewrite, and an engine running a
    script that declares a function and touches no binding. *)
Definition plainBabel : Babel := λ source _, Normal source.

Definition component : JSString :=
  str "function A() {} module.exports = A;".

Definition faulty : JSString := str "throw new Error('boom');".

(** The engine on the scripts run below: [component] assigns the
    function [A] to [module.exports], [faulty] throws, and a script of
    declarations only leaves the module as it was. *)
Definition engine (body : JSString) (module : Module) : Completion Module :=
  if decide (body = component) then Normal (mkModule (JSFun (str "A")))
  else if decide (body = faulty) then Throw (str "boom")
  else Normal module.

Definition host (r : Response) : Host :=
  mkHost None true (Some plainBabel) engine (λ _, Normal ()) r
    (λ _, Normal ()).

Definition offline : Host := host (NetworkFault (str "Failed to fetch")).

(** The same host when the compiler script cannot be fetched. *)
Definition blocked : Host :=
  mkHost None false None engine (λ _, Normal ())
    (NetworkFault (str "Failed to fetch")) (λ _, Normal ()).

Definition exporting : ComponentProps := mkProps component [] false.

Definition props : ComponentProps :=
  mkProps (str "function A() {}") [] false.

Definition fresh : World := mount props None.

(** The world once the first render cycle is over. *)
Definition rendered : World :=
  exec (renderEffect offline props) fresh.

(** The same with an instruction typed in. *)
Definition prompted : World :=
  exec (commitPrompt (str "Add a button")) rendered.

Definition answer (text : string) : Response :=
  HttpResponse true 200 [bytes text] None.


End Run.


(** * Properties *)

(** ** Reading a handler run *)

Ltac run :=
  unfold after, exec, updateWithAI, undoLastChange, handleRetry, renderEffect,
    renderComponent, transpileCode, await_loadBabel, loadBabel, onload,
    onerror, saveCustomPrompt, commitPrompt, editCode, isValidJavaScript,
    mbind, M_bind, mret, M_ret, tryCatch, throw, lift, getState, emit,
    updateState, spread in *;
  simpl in *.

Lemma spread_function (s : State) (updater : State → list Property) :
  spread s (Fn updater) = s.
Proof. reflexivity. Qed.

Lemma state_eta (s : State) :
  mkState (error s) (loadingStatus s) (preview s) (code s)
    (streamingResponse s) (aiPrompt s) (isUpdating s) (retryCount s)
    (customPrompts s) (history s) = s.
Proof. by destruct s. Qed.

Lemma world_eta (w : World) :
  mkWorld (state w) (babel w) (babelLoaded w) (localStorage w) (trace w) = w.
Proof. by destruct w. Qed.

Lemma saveCustomPrompt_cases (h : Host) (w : World) :
  exec (saveCustomPrompt h) w
  = match setItem h (customPrompts (state w) ++ [aiPrompt (state w)]) with
    | Normal _ =>
        mkWorld
          (assign (state w)
             (p_customPrompts (customPrompts (state w) ++ [aiPrompt (state w)])))
          (babel w) (babelLoaded w)
          (Some (customPrompts (state w) ++ [aiPrompt (state w)])) (trace w)
    | _ => w
    end.
Proof.
  unfold exec, saveCustomPrompt, mbind, M_bind, getState, lift, updateState,
    spread. simpl.
  by destruct (setItem h _).
Qed.

(** ** Instruction submission *)

(** The assistant answered with status ok, the stream ended cleanly, and
    the accumulated [text] passed the markup check and the syntax check. *)
Definition accepted (h : Host) (text : JSString) : Prop :=
  ∃ status chunks,
    respond h = HttpResponse true status chunks None
    ∧ accumulate [] chunks = text
    ∧ startsWith (trim text) (str "<") = false
    ∧ parse h text = Normal ().

(** The ways a submission fails before the syntax check, with the message
    thrown to the outer [catch]. *)
Inductive rejected (h : Host) : JSString → Prop :=
| rejected_fault message :
    respond h = NetworkFault message →
    rejected h message
| rejected_status status chunks readFault :
    respond h = HttpResponse false status chunks readFault →
    rejected h (str "AI API responded with status " ++ decimal status)
| rejected_stream status chunks message :
    respond h = HttpResponse true status chunks (Some message) →
    rejected h message
| rejected_markup status chunks :
    respond h = HttpResponse true status chunks None →
    startsWith (trim (accumulate [] chunks)) (str "<") = true →
    rejected h (str "Received HTML instead of JavaScript. There may be a server issue.").

(** The answer arrived whole, is not markup, and does not parse. *)
Definition unparsable (h : Host) (text : JSString) : Prop :=
  ∃ status chunks diagnostic,
    respond h = HttpResponse true status chunks None
    ∧ accumulate [] chunks = text
    ∧ startsWith (trim text) (str "<") = false
    ∧ parse h text = Throw diagnostic.

(** A submission that succeeds ends in the state that line 159 produced:
    the updater of lines 206-210 is handed to [updateState], whose spread
    copies nothing from a function. *)
Lemma updateWithAI_accepted (h : Host) (w : World) (text : JSString) :
  truthy (trim (aiPrompt (state w))) = true →
  accepted h text →
  let s := state w in
  after (updateWithAI h) w
  = mkState None (loadingStatus s) (preview s) (code s) (streamingResponse s)
      (aiPrompt s) true (retryCount s) (customPrompts s) (history s).
Proof.
  intros Hprompt (status & chunks & Hresp & Htext & Hmarkup & Hparse) s.
  run. rewrite Hprompt. simpl. rewrite Hresp. simpl.
  rewrite Htext, Hmarkup, Hparse. reflexivity.
Qed.

(** C1 (code as it is).  After a submission that succeeds, [code] is not
    replaced by the returned text, [history] has not grown and [isUpdating]
    is still true: the state is the one left by the update of line 159,
    which cleared [error] and set [isUpdating]. *)
Theorem updateWithAI_accepted_state (h : Host) (w : World) (text : JSString) :
  truthy (trim (aiPrompt (state w))) = true →
  accepted h text →
  let s' := after (updateWithAI h) w in
  code s' = code (state w)
  ∧ history s' = history (state w)
  ∧ isUpdating s' = true
  ∧ s' = spread (state w) (Obj [p_isUpdating true; p_error None]).
Proof.
  intros Hprompt Haccepted s'. subst s'.
  by rewrite (updateWithAI_accepted h w text Hprompt Haccepted).
Qed.

Lemma updateWithAI_accepted_witness :
  let s' := after (updateWithAI (Run.host (Run.answer "function B() {}")))
              Run.prompted in
  code s' = str "function A() {}"
  ∧ history s' = []
  ∧ isUpdating s' = true
  ∧ s' = mkState None Status.ready (Some (mkElement (JSObj []) []))
           (str "function A() {}") [] (str "Add a button") true 0%Z [] [].
Proof.
  apply (updateWithAI_accepted_state
           (Run.host (Run.answer "function B() {}")) Run.prompted
           (str "function B() {}")).
  - reflexivity.
  - exists 200%Z, [Run.bytes "function B() {}"]. repeat split; reflexivity.
Defined.

(** Undo leaves every world as it finds it: with an empty [history] the
    guard of line 252 fails, otherwise the updater of lines 254-257 is spread
    as an object without properties. *)
Lemma undoLastChange_world (w : World) : exec undoLastChange w = w.
Proof.
  run. destruct (0 <? length (history (state w)))%nat; [|done].
  destruct (history (state w) !! _); simpl; [apply world_eta|done].
Qed.




(** C4 (code as it is).  A submission that fails before the syntax check
    reaches the [catch] of lines 218-223: the message is recorded behind
    "AI update failed: ", [isUpdating] is cleared and [code] is kept, and
    [loadingStatus] keeps the value it had; it is not set to "error". *)
Theorem updateWithAI_rejected_state (h : Host) (w : World) (message : JSString) :
  truthy (trim (aiPrompt (state w))) = true →
  rejected h message →
  let s := state w in
  after (updateWithAI h) w
  = mkState (Some (str "AI update failed: " ++ message)) (loadingStatus s)
      (preview s) (code s) (streamingResponse s) (aiPrompt s) false
      (retryCount s) (customPrompts s) (history s).
Proof.
  intros Hprompt Hrejected s. run. rewrite Hprompt. simpl.
  destruct Hrejected as [m Hresp|status chunks fault Hresp
                        |status chunks m Hresp|status chunks Hresp Hmarkup];
    rewrite Hresp; simpl; try reflexivity.
  rewrite Hmarkup. reflexivity.
Qed.

Lemma updateWithAI_rejected_witness :
  after (updateWithAI (Run.host (HttpResponse false 502 [] None))) Run.prompted
  = mkState (Some (str "AI update failed: AI API responded with status 502"))
      Status.ready (Some (mkElement (JSObj []) []))
      (str "function A() {}") [] (str "Add a button") false 0%Z [] [].
Proof.
  apply (updateWithAI_rejected_state
           (Run.host (HttpResponse false 502 [] None)) Run.prompted
           (str "AI API responded with status " ++ decimal 502)).
  - reflexivity.
  - apply (rejected_status _ 502%Z [] None). reflexivity.
Defined.

(** The sibling path: an answer that does not parse reaches the [catch] of
    lines 211-217, which does set [loadingStatus] to "error". *)
Lemma updateWithAI_unparsable_state (h : Host) (w : World) (text : JSString) :
  truthy (trim (aiPrompt (state w))) = true →
  unparsable h text →
  let s := state w in
  after (updateWithAI h) w
  = mkState
      (Some (str "AI response contains invalid JavaScript code: "
               ++ str "Invalid JavaScript code"
               ++ str ". Try refining the prompt."))
      Status.error (preview s) (code s) (streamingResponse s) (aiPrompt s)
      false (retryCount s) (customPrompts s) (history s).
Proof.
  intros Hprompt (status & chunks & diagnostic & Hresp & Htext & Hmarkup & Hparse) s.
  run. rewrite Hprompt. simpl. rewrite Hresp. simpl.
  rewrite Htext, Hmarkup, Hparse. reflexivity.
Qed.

(** A blank instruction records a message and contacts nobody. *)
Lemma updateWithAI_blank (h : Host) (w : World) :
  truthy (trim (aiPrompt (state w))) = false →
  trace (exec (updateWithAI h) w) = trace w
  ∧ after (updateWithAI h) w
    = assign (state w) (p_error (Some (str "Please enter a prompt for the AI"))).
Proof. intros Hblank. run. rewrite Hblank. by simpl. Qed.

(** ** The loader *)

Definition loaded (w : World) : bool := babelLoaded w && isSome (babel w).

(** A call in a world that is not loaded appends a script element, whether
    or not an earlier one is still pending. *)
Lemma loadBabel_pending (h : Host) (w : World) :
  loaded w = false →
  (loadBabel h w).1 = Normal Pending
  ∧ trace (exec (loadBabel h) w) = trace w ++ [AppendScript (BABEL_CDN_URL h)]
  ∧ loaded (exec (loadBabel h) w) = false.
Proof. unfold loaded. intros Hl. run. rewrite Hl. by simpl. Qed.

Lemma loadBabel_resolved (h : Host) (w : World) :
  loaded w = true → loadBabel h w = (Normal Resolved, w).
Proof. unfold loaded. intros Hl. run. by rewrite Hl. Qed.

Lemma fetches_app (w : World) (t : list Effect) (es : list Effect) :
  t = trace w ++ es →
  length (List.filter isAppendScript t)
  = (fetches w + length (List.filter isAppendScript es))%nat.
Proof. intros ->. unfold fetches. by rewrite List.filter_app, length_app. Qed.

(** C5 (as the claim states it).  It is not the case that a second call,
    made while the script of a first call is still pending, appends no
    further script. *)
Lemma second_call_fetches_again :
  ¬ (∀ (h : Host) (w : World),
       (loadBabel h w).1 = Normal Pending →
       let w1 := exec (loadBabel h) w in
       fetches (exec (loadBabel h) w1) = fetches w1).
Proof.
  intros Hclaim.
  specialize (Hclaim Run.offline Run.fresh eq_refl). by vm_compute in Hclaim.
Qed.

(** ** The render cycle *)

(** The compiler a render cycle started in [w] ends up with: the cached
    handle, or what the script defines when it loads. *)
Definition compiler (h : Host) (w : World) : option Babel :=
  if loaded w then babel w
  else if scriptLoads h then windowBabel h else None.

Definition source (p : ComponentProps) (w : World) : JSString :=
  if noInlineStyles p then replaceStyle 0 (code (state w)) else code (state w).

Definition transpiles (h : Host) (p : ComponentProps) (w : World)
    (body : JSString) : Prop :=
  ∃ transform,
    compiler h w = Some transform
    ∧ transform (source p w) transformOptions = Normal body
    ∧ truthy body = true.

(** The cycle is successful: the source compiles and the compiled text
    runs to its end, leaving [module] behind. *)
Definition executes (h : Host) (p : ComponentProps) (w : World)
    (module : Module) : Prop :=
  ∃ body,
    transpiles h p w body
    ∧ invoke h body (mkModule (JSObj [])) = Normal module.

(** The cycle fails: at the load, at the compiler, or in the sandbox. *)
Inductive renderFails (h : Host) (p : ComponentProps) (w : World) : Prop :=
| fails_load :
    loaded w = false → scriptLoads h = false → renderFails h p w
| fails_handle :
    compiler h w = None → renderFails h p w
| fails_transform transform diagnostic :
    compiler h w = Some transform →
    transform (source p w) transformOptions = Throw diagnostic →
    renderFails h p w
| fails_runtime body message :
    transpiles h p w body →
    invoke h body (mkModule (JSObj [])) = Throw message →
    renderFails h p w.

Ltac cases := repeat (case_match; simpl in *; simplify_eq); try done.

Lemma renderComponent_success (h : Host) (p : ComponentProps) (w : World)
    (module : Module) :
  executes h p w module →
  let s := state w in
  after (renderComponent h p) w
  = mkState (error s) Status.ready
      (Some (createElement (exports module) (previewProps p)))
      (code s) (streamingResponse s) (aiPrompt s) (isUpdating s)
      (retryCount s) (customPrompts s) (history s).
Proof.
  intros (body & (transform & Hc & Ht & Hb) & Hrun) s.
  unfold compiler, source, loaded in *. run.
  destruct (babelLoaded w && isSome (babel w)); simpl in *.
  - rewrite Hc. simpl. rewrite Ht. simpl. rewrite Hb. simpl.
    rewrite Hrun. by simpl.
  - destruct (scriptLoads h); [|done]. simpl. rewrite Hc. simpl.
    rewrite Ht. simpl. rewrite Hb. simpl. rewrite Hrun. by simpl.
Qed.

Lemma renderComponent_failure (h : Host) (p : ComponentProps) (w : World) :
  renderFails h p w →
  ∃ message,
    error (after (renderComponent h p) w) = Some message
    ∧ truthy message = true
    ∧ loadingStatus (after (renderComponent h p) w) = Status.error.
Proof.
  intros Hf.
  destruct Hf as [Hl Hs|Hc|transform diagnostic Hc Ht
                 |body message (transform & Hc & Ht & Hb) Hrun];
    unfold compiler, source, loaded in *; run.
  - rewrite Hl, Hs. simpl. eauto.
  - destruct (babelLoaded w && isSome (babel w)); simpl in *.
    + rewrite Hc. simpl. eauto.
    + destruct (scriptLoads h); simpl; [rewrite Hc|]; simpl; eauto.
  - destruct (babelLoaded w && isSome (babel w)); simpl in *.
    + rewrite Hc. simpl. rewrite Ht. simpl. eauto.
    + destruct (scriptLoads h); [|done]. simpl. rewrite Hc. simpl.
      rewrite Ht. simpl. eauto.
  - destruct (babelLoaded w && isSome (babel w)); simpl in *.
    + rewrite Hc. simpl. rewrite Ht. simpl. rewrite Hb. simpl.
      rewrite Hrun. simpl. eauto.
    + destruct (scriptLoads h); [|done]. simpl. rewrite Hc. simpl.
      rewrite Ht. simpl. rewrite Hb. simpl. rewrite Hrun. simpl. eauto.
Qed.

(** C3 (as the claim states it).  It is not the case that a compiled text
    which runs to its end without assigning a component to [module.exports]
    ends the cycle in status "error" with a runtime-error message. *)
Lemma missing_export_is_rendered :
  ¬ (∀ (h : Host) (p : ComponentProps) (w : World) (module : Module),
       executes h p w module →
       (∀ name, exports module ≠ JSFun name) →
       let s' := after (renderComponent h p) w in
       loadingStatus s' = Status.error
       ∧ ∃ message, error s' = Some (str "Runtime error: " ++ message)).
Proof.
  intros Hclaim.
  destruct (Hclaim Run.offline Run.props Run.fresh (mkModule (JSObj [])))
    as [Hstatus _].
  - exists (str "function A() {}"). split; [|reflexivity].
    exists Run.plainBabel. repeat split; reflexivity.
  - by intros name.
  - by vm_compute in Hstatus.
Qed.

(** C3 (amended).  A compiled text that runs to its end has whatever it
    left in [module.exports], also the untouched empty object, made into an
    element with the given properties and stored as [preview]; the status
    becomes "ready" and the [error] field is left as it was. *)
Theorem execute_renders_any_export (h : Host) (p : ComponentProps) (w : World)
    (module : Module) :
  executes h p w module →
  let s' := after (renderComponent h p) w in
  loadingStatus s' = Status.ready
  ∧ preview s' = Some (createElement (exports module) (previewProps p))
  ∧ error s' = error (state w).
Proof.
  intros Hexec s'. subst s'.
  by rewrite (renderComponent_success h p w module Hexec).
Qed.

Lemma execute_renders_any_export_witness :
  let s' := after (renderComponent Run.offline Run.props) Run.fresh in
  loadingStatus s' = Status.ready
  ∧ preview s' = Some (mkElement (JSObj []) [])
  ∧ error s' = None.
Proof.
  apply (execute_renders_any_export Run.offline Run.props Run.fresh
           (mkModule (JSObj []))).
  exists (str "function A() {}"). split; [|reflexivity].
  exists Run.plainBabel. repeat split; reflexivity.
Defined.

(** C9.  A successful render cycle changes [preview] and [loadingStatus]
    and no other field; when it follows a failed cycle, the message that
    cycle recorded is still in [error] and the panel shown is the error
    panel with that message. *)
Theorem successful_render_frame (h : Host) (p : ComponentProps) (w : World)
    (module : Module) :
  executes h p w module →
  let s := state w in
  let s' := after (renderComponent h p) w in
  s' = mkState (error s) Status.ready
         (Some (createElement (exports module) (previewProps p)))
         (code s) (streamingResponse s) (aiPrompt s) (isUpdating s)
         (retryCount s) (customPrompts s) (history s)
  ∧ (∀ (h0 : Host) (w0 : World),
       renderFails h0 p w0 →
       w = exec (renderComponent h0 p) w0 →
       ∃ message,
         error s = Some message
         ∧ error s' = Some message
         ∧ panel s' = ErrorContent message).
Proof.
  intros Hexec s s'.
  assert (Hs' := renderComponent_success h p w module Hexec).
  fold s s' in Hs'. simpl in Hs'. split; [exact Hs'|].
  intros h0 w0 Hfails Hw.
  destruct (renderComponent_failure h0 p w0 Hfails)
    as (message & Herror & Htruthy & _).
  assert (error s = Some message) as He.
  { subst s. rewrite Hw. exact Herror. }
  exists message. split; [exact He|].
  rewrite Hs'. unfold panel. simpl. by rewrite He, Htruthy.
Qed.

Lemma successful_render_frame_witness :
  let w := exec (renderComponent Run.blocked Run.exporting)
             (mount Run.exporting None) in
  let s' := after (renderComponent Run.offline Run.exporting) w in
  loadingStatus s' = Status.ready
  ∧ panel s'
    = ErrorContent (str "Error during transpilation: Failed to load Babel").
Proof.
  intros w s'.
  assert (executes Run.offline Run.exporting w (mkModule (JSFun (str "A"))))
    as Hexec.
  { exists Run.component. split; [|reflexivity].
    exists Run.plainBabel. repeat split; reflexivity. }
  destruct (successful_render_frame Run.offline Run.exporting w
              (mkModule (JSFun (str "A"))) Hexec) as [Hs' Hstale].
  fold s' in Hs', Hstale. split.
  - rewrite Hs'. reflexivity.
  - destruct (Hstale Run.blocked (mount Run.exporting None))
      as (message & Hbefore & _ & Hpanel).
    + apply fails_load; reflexivity.
    + reflexivity.
    + rewrite Hpanel. f_equal.
      assert (Some message
              = Some (str "Error during transpilation: Failed to load Babel"))
        as Heq by (rewrite <- Hbefore; reflexivity).
      by injection Heq.
Defined.

(** ** What the handlers leave alone *)

Lemma renderComponent_trace (h : Host) (p : ComponentProps) (w : World) :
  trace (exec (renderComponent h p) w)
  = trace w ++ RenderComponent
      :: (if loaded w then [] else [AppendScript (BABEL_CDN_URL h)]).
Proof.
  unfold loaded. run.
  destruct (babelLoaded w && isSome (babel w)); simpl; cases;
    by rewrite <- ?app_assoc.
Qed.

Lemma renderComponent_renders (h : Host) (p : ComponentProps) (w : World) :
  renders (exec (renderComponent h p) w) = S (renders w).
Proof.
  unfold renders. rewrite renderComponent_trace, List.filter_app, length_app.
  destruct (loaded w); simpl; lia.
Qed.

Lemma renderComponent_retryCount (h : Host) (p : ComponentProps) (w : World) :
  retryCount (after (renderComponent h p) w) = retryCount (state w).
Proof.
  run. destruct (babelLoaded w && isSome (babel w)); simpl; cases.
Qed.

Lemma renderComponent_loaded (h : Host) (p : ComponentProps) (w : World) :
  loaded w = true → loaded (exec (renderComponent h p) w) = true.
Proof.
  unfold loaded. intros Hl. run. rewrite Hl. simpl. cases.
Qed.

Lemma updateWithAI_refs (h : Host) (w : World) :
  retryCount (after (updateWithAI h) w) = retryCount (state w)
  ∧ loaded (exec (updateWithAI h) w) = loaded w.
Proof. unfold loaded. run. cases. Qed.

Lemma step_loaded (p : ComponentProps) (w w' : World) :
  step p w w' → loaded w = true → loaded w' = true.
Proof.
  intros Hstep Hl. destruct Hstep as [v w|v w|h w _|h w|w|h w m _|h w|item w].
  - exact Hl.
  - exact Hl.
  - by rewrite (proj2 (updateWithAI_refs h w)).
  - rewrite saveCustomPrompt_cases. by destruct (setItem h _).
  - by rewrite undoLastChange_world.
  - unfold handleRetry, exec, mbind, M_bind, getState. simpl.
    destruct (retryCount (state w) <? MAX_RETRIES)%Z; [|exact Hl].
    by apply (renderComponent_loaded h p).
  - unfold renderEffect, exec, mbind, M_bind, getState. simpl.
    destruct (renderTrigger (state w)); [|exact Hl].
    by apply (renderComponent_loaded h p).
  - exact Hl.
Qed.

Lemma steps_loaded (p : ComponentProps) (w w' : World) :
  rtc (step p) w w' → loaded w = true → loaded w' = true.
Proof. induction 1; eauto using step_loaded. Qed.

(** C5 (amended).  A call made while the script of an earlier call is
    still pending starts a fetch of its own, since the guard reads only the
    flag and the handle that [onload] sets.  Once a script has loaded and
    defined the compiler, every later call, after any handlers, resolves at
    once and leaves the world as it is. *)
Theorem loadBabel_guard (p : ComponentProps) :
  (∀ (h h' : Host) (w : World),
     loaded w = false →
     let w1 := exec (loadBabel h) w in
     let w2 := exec (loadBabel h') w1 in
     (loadBabel h' w1).1 = Normal Pending
     ∧ fetches w1 = S (fetches w)
     ∧ fetches w2 = S (S (fetches w)))
  ∧ (∀ (h h' : Host) (w w' : World) (handle : Babel),
       windowBabel h = Some handle →
       rtc (step p) (exec (onload h) w) w' →
       loadBabel h' w' = (Normal Resolved, w')).
Proof.
  split.
  - intros h h' w Hl w1 w2.
    destruct (loadBabel_pending h w Hl) as (_ & Ht1 & Hl1). fold w1 in Ht1, Hl1.
    destruct (loadBabel_pending h' w1 Hl1) as (Hp & Ht2 & _). fold w2 in Ht2.
    split; [exact Hp|].
    assert (fetches w1 = S (fetches w)) as Hf1.
    { unfold fetches at 1. rewrite (fetches_app w _ _ Ht1). simpl. lia. }
    split; [exact Hf1|].
    unfold fetches at 1. rewrite (fetches_app w1 _ _ Ht2). simpl. lia.
  - intros h h' w w' handle Hhandle Hsteps.
    apply loadBabel_resolved, (steps_loaded p _ _ Hsteps).
    unfold loaded. run. by rewrite Hhandle.
Qed.

Lemma loadBabel_guard_witness :
  (let w1 := exec (loadBabel Run.offline) Run.fresh in
   let w2 := exec (loadBabel Run.offline) w1 in
   (loadBabel Run.offline w1).1 = Normal Pending
   ∧ fetches w1 = 1%nat ∧ fetches w2 = 2%nat)
  ∧ loadBabel Run.blocked (exec (onload Run.offline) Run.fresh)
    = (Normal Resolved, exec (onload Run.offline) Run.fresh).
Proof.
  split.
  - apply (proj1 (loadBabel_guard Run.props) Run.offline Run.offline Run.fresh).
    reflexivity.
  - apply (proj2 (loadBabel_guard Run.props) Run.offline Run.blocked Run.fresh
             _ Run.plainBabel).
    + reflexivity.
    + apply rtc_refl.
Defined.

(** ** The render trigger *)

(** C6 (as the claim states it).  It is not the case that, with status
    "ready" or "error" and no update in flight, a change of [code] to a
    non-blank value starts a render cycle. *)
Lemma edit_when_ready_renders_nothing :
  ¬ (∀ (h : Host) (p : ComponentProps) (w : World) (value : JSString),
       loadingStatus (state w) = Status.ready
       ∨ loadingStatus (state w) = Status.error →
       isUpdating (state w) = false →
       truthy (trim value) = true →
       value ≠ code (state w) →
       let w' := exec (editCode value;; renderEffect h p) w in
       (renders w < renders w')%nat).
Proof.
  intros Hclaim.
  assert (Hlt := Hclaim Run.offline Run.props Run.rendered
                   (str "function B() {}")).
  vm_compute in Hlt.
  specialize (Hlt (or_introl eq_refl) eq_refl eq_refl).
  cut (2 <= 1)%nat; [lia|]. apply Hlt. discriminate.
Qed.

Lemma editCode_then_effect (h : Host) (p : ComponentProps) (w : World)
    (value : JSString) :
  exec (editCode value;; renderEffect h p) w
  = if renderTrigger (state (exec (editCode value) w))
    then exec (renderComponent h p) (exec (editCode value) w)
    else exec (editCode value) w.
Proof.
  unfold exec, editCode, renderEffect, mbind, M_bind, updateState, getState.
  simpl. by destruct (renderTrigger _).
Qed.

(** C6 (amended).  With no update in flight, a change of [code] to a
    non-blank value starts a render cycle when the status is "idle"; with any
    other status, "ready" and "error" among them, it replaces [code] and
    nothing else: no cycle starts and the status stays. *)
Theorem edit_renders_only_when_idle (h : Host) (p : ComponentProps) (w : World)
    (value : JSString) :
  isUpdating (state w) = false →
  truthy (trim value) = true →
  let w' := exec (editCode value;; renderEffect h p) w in
  (loadingStatus (state w) ≠ Status.idle →
     state w' = assign (state w) (p_code value)
     ∧ loadingStatus (state w') = loadingStatus (state w)
     ∧ renders w' = renders w)
  ∧ (loadingStatus (state w) = Status.idle → renders w' = S (renders w)).
Proof.
  intros Hupdating Hvalue w'. subst w'.
  rewrite editCode_then_effect.
  assert (renderTrigger (state (exec (editCode value) w))
          = bool_decide (loadingStatus (state w) = Status.idle)) as ->.
  { unfold renderTrigger. change (code (state (exec (editCode value) w))) with value.
    change (isUpdating (state (exec (editCode value) w)))
      with (isUpdating (state w)).
    rewrite Hupdating, Hvalue.
    by destruct (bool_decide _). }
  split; intros Hstatus.
  - by rewrite bool_decide_eq_false_2.
  - rewrite bool_decide_eq_true_2 by done.
    apply (renderComponent_renders h p (exec (editCode value) w)).
Qed.

Lemma edit_renders_only_when_idle_witness :
  let w' := exec (editCode (str "function B() {}");;
                  renderEffect Run.offline Run.props) Run.rendered in
  state w' = assign (state Run.rendered) (p_code (str "function B() {}"))
  ∧ loadingStatus (state w') = Status.ready
  ∧ renders w' = 1%nat.
Proof.
  apply (proj1 (edit_renders_only_when_idle Run.offline Run.props Run.rendered
                  (str "function B() {}") eq_refl eq_refl)).
  discriminate.
Defined.

(** ** Retry *)

Lemma handleRetry_below (h : Host) (p : ComponentProps) (w : World) :
  (retryCount (state w) < MAX_RETRIES)%Z →
  retryCount (after (handleRetry h p) w) = (retryCount (state w) + 1)%Z
  ∧ renders (exec (handleRetry h p) w) = S (renders w).
Proof.
  intros Hlt. apply Z.ltb_lt in Hlt.
  set (w1 := exec (updateState
                     (Obj [p_retryCount (retryCount (state w) + 1)%Z])) w).
  assert (exec (handleRetry h p) w = exec (renderComponent h p) w1) as Hrun.
  { unfold handleRetry, exec at 1, mbind, M_bind, getState. simpl.
    by rewrite Hlt. }
  unfold after. rewrite Hrun. split.
  - apply (renderComponent_retryCount h p w1).
  - apply (renderComponent_renders h p w1).
Qed.

Lemma handleRetry_ceiling (h : Host) (p : ComponentProps) (w : World) :
  retryCount (state w) = MAX_RETRIES →
  exec (handleRetry h p) w
  = mkWorld (assign (state w) (p_retryCount 0%Z)) (babel w) (babelLoaded w)
      (localStorage w) (trace w).
Proof.
  intros Heq. unfold handleRetry, exec, mbind, M_bind, getState. simpl.
  by rewrite Heq.
Qed.

(** Retries one after the other, each against its own host. *)
Definition retries (p : ComponentProps) (hs : list Host) (w : World) : World :=
  foldl (λ w h, exec (handleRetry h p) w) w hs.

Lemma retries_below (p : ComponentProps) (hs : list Host) (w : World) :
  (retryCount (state w) + Z.of_nat (length hs) ≤ MAX_RETRIES)%Z →
  retryCount (state (retries p hs w))
  = (retryCount (state w) + Z.of_nat (length hs))%Z
  ∧ renders (retries p hs w) = (renders w + length hs)%nat.
Proof.
  revert w. induction hs as [|h hs IH]; intros w Hle; simpl in *.
  - split; lia.
  - destruct (handleRetry_below h p w) as [Hcount Hrenders]; [lia|].
    unfold after in Hcount.
    destruct (IH (exec (handleRetry h p) w)) as [IHcount IHrenders]; [lia|].
    unfold retries in *. rewrite IHcount, IHrenders. split; lia.
Qed.

(** Only [handleRetry] writes [retryCount]: whatever else runs between
    two retries leaves the count where it was. *)
Lemma others_keep_retryCount (h : Host) (p : ComponentProps) (w : World)
    (value : JSString) :
  retryCount (after (editCode value) w) = retryCount (state w)
  ∧ retryCount (after (commitPrompt value) w) = retryCount (state w)
  ∧ retryCount (after (saveCustomPrompt h) w) = retryCount (state w)
  ∧ retryCount (after undoLastChange w) = retryCount (state w)
  ∧ retryCount (after (updateWithAI h) w) = retryCount (state w)
  ∧ retryCount (after (renderEffect h p) w) = retryCount (state w).
Proof.
  repeat split; try reflexivity.
  - unfold after. rewrite saveCustomPrompt_cases. by destruct (setItem h _).
  - unfold after. by rewrite undoLastChange_world.
  - apply updateWithAI_refs.
  - unfold after, renderEffect, exec, mbind, M_bind, getState. simpl.
    destruct (renderTrigger (state w)); [|done].
    apply (renderComponent_retryCount h p w).
Qed.

Lemma step_retryCount (p : ComponentProps) (w w' : World) :
  step p w w' →
  (0 ≤ retryCount (state w) ≤ MAX_RETRIES)%Z →
  (0 ≤ retryCount (state w') ≤ MAX_RETRIES)%Z.
Proof.
  intros Hstep Hb. destruct Hstep as [v w|v w|h w _|h w|w|h w m _|h w|item w];
    [| | | | | | |exact Hb].
  - exact Hb.
  - exact Hb.
  - change (state (exec (updateWithAI h) w)) with (after (updateWithAI h) w).
    by rewrite (proj1 (updateWithAI_refs h w)).
  - rewrite saveCustomPrompt_cases. by destruct (setItem h _).
  - by rewrite undoLastChange_world.
  - destruct (decide (retryCount (state w) = MAX_RETRIES)) as [Heq|Hne].
    + rewrite (handleRetry_ceiling h p w Heq). simpl. unfold MAX_RETRIES. lia.
    + destruct (handleRetry_below h p w) as [Hcount _]; [lia|].
      unfold after in Hcount. lia.
  - unfold renderEffect, exec, mbind, M_bind, getState. simpl.
    destruct (renderTrigger (state w)); [|exact Hb].
    assert (Hframe := renderComponent_retryCount h p w).
    unfold after, exec in Hframe. by rewrite Hframe.
Qed.

(** A session with two error episodes.  The script of the first render
    cycle cannot be fetched; the user blanks the code and retries, which loads
    a compiler that gives no text for a blank source, so the cycle ends
    silently in status "idle"; the user then types a malformed source and the
    render effect fails on it. *)
Module Episode.

Definition malformed : JSString := str "function ( { ".

(** Babel on the sources of this session: nothing for a blank source, a
    diagnostic for [malformed], the source itself otherwise. *)
Definition blankAware : Babel := λ source _,
  if truthy (trim source) then
    if decide (source = malformed)
    then Throw (str "preview.jsx: Unexpected token (1:9)")
    else Normal source
  else Normal [].

Definition online : Host :=
  mkHost None true (Some blankAware) Run.engine (λ _, Normal ())
    (NetworkFault (str "Failed to fetch")) (λ _, Normal ()).

Definition failed : World := exec (renderEffect Run.blocked Run.props) Run.fresh.
Definition blanked : World := exec (editCode (str "  ")) failed.
Definition retried : World := exec (handleRetry online Run.props) blanked.
Definition retyped : World := exec (editCode malformed) retried.
Definition started : World := exec (renderEffect online Run.props) retyped.

End Episode.

Lemma episode_retyped : reachable Run.props None Episode.retyped.
Proof.
  unfold reachable.
  apply (rtc_l _ _ Episode.failed);
    [apply (step_effect Run.props Run.blocked Run.fresh)|].
  apply (rtc_l _ _ Episode.blanked);
    [apply (step_edit Run.props (str "  ") Episode.failed)|].
  apply (rtc_l _ _ Episode.retried).
  { apply (step_retry Run.props Episode.online Episode.blanked
             (str "Error during transpilation: Failed to load Babel")).
    reflexivity. }
  apply (rtc_once _ _
           (step_edit Run.props Episode.malformed Episode.retried)).
Defined.

Lemma episode_started : reachable Run.props None Episode.started.
Proof.
  unfold reachable.
  apply (rtc_r _ Episode.retyped _); [exact episode_retyped|].
  apply (step_effect Run.props Episode.online Episode.retyped).
Defined.

(** C7 (as the claim states it).  It is not the case that in every error
    episode, taken from the step at which the error panel comes up, each of
    the first five retries adds one to [retryCount] and calls
    [renderComponent], and the sixth resets the count, calls nothing and
    leaves the status at "error". *)
Lemma later_episode_resets_early :
  ¬ (∀ (p : ComponentProps) (stored : option (list JSString))
       (w0 w : World) (hs : list Host) (h6 : Host),
       reachable p stored w0 →
       step p w0 w →
       (∀ message, panel (state w0) ≠ ErrorContent message) →
       (∃ message, panel (state w) = ErrorContent message) →
       length hs = 5%nat →
       (∀ i, (i < 5)%nat →
          retryCount (state (retries p (take (S i) hs) w))
          = (retryCount (state (retries p (take i hs) w)) + 1)%Z
          ∧ renders (retries p (take (S i) hs) w)
            = S (renders (retries p (take i hs) w)))
       ∧ (let w5 := retries p hs w in
          let w6 := exec (handleRetry h6 p) w5 in
          retryCount (state w6) = 0%Z
          ∧ renders w6 = renders w5
          ∧ loadingStatus (state w6) = Status.error)).
Proof.
  intros Hclaim.
  destruct (Hclaim Run.props None Episode.retyped Episode.started
              (replicate 5 Episode.online) Episode.online episode_retyped)
    as [Hfirst _].
  - apply (step_effect Run.props Episode.online Episode.retyped).
  - intros message Hpanel. vm_compute in Hpanel. discriminate Hpanel.
  - eexists. reflexivity.
  - reflexivity.
  - destruct (Hfirst 4%nat) as [Hcount _]; [lia|].
    vm_compute in Hcount. discriminate Hcount.
Qed.

(** C7 (amended).  In every reachable state [retryCount] lies between 0
    and 5.  A retry at a count below 5 adds exactly one and calls
    [renderComponent] once; a retry at 5 puts the count back to 0, calls
    nothing and leaves the status and every other field as they were.  The
    count is written nowhere else, so from a count of [c] the next [5 - c]
    retries are the rendering ones and the one after them is the reset. *)
Theorem retry_ceiling (p : ComponentProps) :
  (∀ (stored : option (list JSString)) (w : World),
     reachable p stored w → (0 ≤ retryCount (state w) ≤ MAX_RETRIES)%Z)
  ∧ (∀ (h : Host) (w : World),
       (0 ≤ retryCount (state w) < MAX_RETRIES)%Z →
       retryCount (after (handleRetry h p) w) = (retryCount (state w) + 1)%Z
       ∧ renders (exec (handleRetry h p) w) = S (renders w))
  ∧ (∀ (h : Host) (w : World),
       retryCount (state w) = MAX_RETRIES →
       let w' := exec (handleRetry h p) w in
       state w' = assign (state w) (p_retryCount 0%Z)
       ∧ renders w' = renders w
       ∧ loadingStatus (state w') = loadingStatus (state w))
  ∧ (∀ (hs : list Host) (w : World),
       (0 ≤ retryCount (state w) ≤ MAX_RETRIES)%Z →
       length hs = Z.to_nat (MAX_RETRIES - retryCount (state w)) →
       retryCount (state (retries p hs w)) = MAX_RETRIES
       ∧ renders (retries p hs w) = (renders w + length hs)%nat)
  ∧ (∀ (h : Host) (w : World) (value : JSString),
       retryCount (after (editCode value) w) = retryCount (state w)
       ∧ retryCount (after (commitPrompt value) w) = retryCount (state w)
       ∧ retryCount (after (saveCustomPrompt h) w) = retryCount (state w)
       ∧ retryCount (after undoLastChange w) = retryCount (state w)
       ∧ retryCount (after (updateWithAI h) w) = retryCount (state w)
       ∧ retryCount (after (renderEffect h p) w) = retryCount (state w)).
Proof.
  split; [|split; [|split; [|split]]].
  - intros stored w Hreach. unfold reachable in Hreach.
    revert w Hreach.
    apply (rtc_ind_r (λ w, (0 ≤ retryCount (state w) ≤ MAX_RETRIES)%Z)).
    + simpl. unfold MAX_RETRIES. lia.
    + eauto using step_retryCount.
  - intros h w [_ Hlt]. by apply handleRetry_below.
  - intros h w Heq w'. subst w'. rewrite (handleRetry_ceiling h p w Heq).
    by repeat split.
  - intros hs w Hrange Hlen.
    destruct (retries_below p hs w) as [Hcount Hrenders]; [lia|].
    split; [|exact Hrenders]. rewrite Hcount, Hlen. lia.
  - intros h w value. apply others_keep_retryCount.
Qed.

Lemma retry_ceiling_witness :
  (0 ≤ retryCount (state Episode.started) ≤ MAX_RETRIES)%Z
  ∧ retryCount (after (handleRetry Episode.online Run.props) Episode.started)
    = 2%Z
  ∧ (let w4 := retries Run.props (replicate 4 Episode.online) Episode.started in
     let w5 := exec (handleRetry Episode.online Run.props) w4 in
     retryCount (state w4) = 5%Z
     ∧ retryCount (state w5) = 0%Z
     ∧ renders w5 = renders w4
     ∧ loadingStatus (state w5) = Status.error).
Proof.
  destruct (retry_ceiling Run.props) as (Hbound & Hbelow & Hreset & Hrun & _).
  split; [|split].
  - apply (Hbound None Episode.started episode_started).
  - apply (Hbelow Episode.online Episode.started). vm_compute. by split.
  - cbv zeta.
    destruct (Hrun (replicate 4 Episode.online) Episode.started) as [H4 _].
    { vm_compute. by split. }
    { reflexivity. }
    destruct (Hreset Episode.online
                (retries Run.props (replicate 4 Episode.online) Episode.started)
                H4) as (Hstate & Hrenders & Hstatus).
    split; [exact H4|]. split; [by rewrite Hstate|].
    split; [exact Hrenders|]. rewrite Hstatus. reflexivity.
Defined.

(** ** The instruction input *)

Lemma debounce_not_declared :
  "debounce"%string
  ∉ (list_to_set (Scope.componentScope ++ Scope.moduleScope ++ Scope.imports)
      : gset string).
Proof.
  rewrite elem_of_list_to_set. simpl. intros Hin.
  repeat (apply elem_of_cons in Hin as [Heq|Hin]; [discriminate Heq|]).
  by apply elem_of_nil in Hin.
Qed.

(** C8 (code as it is).  The initializer of [debouncedOnChange] names
    [debounce], which the file neither imports nor declares.  On every host
    whose global object has no such name its evaluation, part of each render
    of the component, throws a ReferenceError, so no handler comes to
    exist. *)
Theorem debouncedOnChange_unbound (globals : gset string) :
  "debounce"%string ∉ globals →
  Scope.evaluate globals Scope.debouncedOnChange
  = Throw (str "debounce is not defined").
Proof.
  intros Hglobal. unfold Scope.evaluate. simpl.
  rewrite filter_cons_False.
  2:{ intros Hfree. apply Hfree. unfold Scope.bound.
      apply elem_of_union_l, elem_of_list_to_set. simpl.
      repeat first [apply list_elem_of_here|apply list_elem_of_further]. }
  rewrite filter_cons_True; [reflexivity|].
  unfold Scope.bound. apply not_elem_of_union.
  split; [exact debounce_not_declared|exact Hglobal].
Qed.

Lemma debouncedOnChange_unbound_witness :
  Scope.evaluate (list_to_set Scope.usedGlobals) Scope.debouncedOnChange
  = Throw (str "debounce is not defined").
Proof.
  apply (debouncedOnChange_unbound (list_to_set Scope.usedGlobals)).
  rewrite elem_of_list_to_set. simpl. intros Hin.
  repeat (apply elem_of_cons in Hin as [Heq|Hin]; [discriminate Heq|]).
  by apply elem_of_nil in Hin.
Defined.

(** ** The accumulated response *)

Lemma accumulate_concat (aiResponse : JSString) (chunks : list (list Byte.byte)) :
  accumulate aiResponse chunks
  = aiResponse ++ concat (map TextDecoder.decode chunks).
Proof.
  revert aiResponse. induction chunks as [|value rest IH]; intros acc; simpl.
  - by rewrite app_nil_r.
  - by rewrite IH, <- app_assoc.
Qed.

(** C10 (code as it is).  The two bytes of U+00E9 decode to that
    character when they arrive in one chunk, and to two replacement
    characters when they arrive in two: each chunk gets a decoder of its own,
    which closes the sequence the first byte opened and cannot read the
    second byte as a continuation. *)
Theorem split_sequence_is_replaced :
  accumulate [] [[Byte.xc3; Byte.xa9]] = [233]
  ∧ accumulate [] [[Byte.xc3]; [Byte.xa9]] = [65533; 65533]
  ∧ TextDecoder.decode (concat [[Byte.xc3]; [Byte.xa9]]) = [233].
Proof. repeat split; reflexivity. Qed.

Lemma accumulate_depends_on_chunking :
  ¬ (∀ chunks : list (list Byte.byte),
       accumulate [] chunks = TextDecoder.decode (concat chunks)).
Proof.
  intros Hclaim. specialize (Hclaim [[Byte.xc3]; [Byte.xa9]]).
  by vm_compute in Hclaim.
Qed.

(** A byte order mark at the head of a later chunk is dropped as well. *)
Example later_mark_is_dropped :
  accumulate [] [[Byte.x61]; [Byte.xef; Byte.xbb; Byte.xbf; Byte.x62]]
  = [97; 98]
  ∧ TextDecoder.decode [Byte.x61; Byte.xef; Byte.xbb; Byte.xbf; Byte.x62]
    = [97; 65279; 98].
Proof. split; reflexivity. Qed.

(** Where the chunking cannot matter: a stream of ASCII bytes, in which
    no sequence spans two chunks. *)
Definition ascii (value : list Byte.byte) : Prop :=
  Forall (λ b, Byte.to_N b < 128) value.

Lemma decode_ascii (value : list Byte.byte) :
  ascii value → TextDecoder.decode value = map Byte.to_N value.
Proof.
  intros Hascii. unfold TextDecoder.decode.
  assert (TextDecoder.run TextDecoder.initial (map Byte.to_N value)
          = map Byte.to_N value) as ->.
  { induction Hascii as [|b value Hb _ IH]; [done|]. simpl.
    unfold TextDecoder.handler, TextDecoder.lead. simpl.
    destruct (N.leb_spec (Byte.to_N b) 127); [|lia]. simpl. by rewrite IH. }
  assert (TextDecoder.dropBOM (map Byte.to_N value) = map Byte.to_N value) as ->.
  { destruct Hascii as [|b value Hb _]; [done|]. simpl.
    destruct (N.eqb_spec (Byte.to_N b) 65279); [lia|done]. }
  induction Hascii as [|b value Hb _ IH]; [done|]. simpl.
  unfold TextDecoder.codeUnits at 1.
  destruct (N.ltb_spec (Byte.to_N b) 65536); [|lia]. simpl. by rewrite IH.
Qed.

Lemma accumulate_ascii (chunks : list (list Byte.byte)) :
  Forall ascii chunks →
  accumulate [] chunks = TextDecoder.decode (concat chunks).
Proof.
  intros Hascii. rewrite accumulate_concat. simpl.
  rewrite decode_ascii by (by apply Forall_concat).
  induction Hascii as [|value rest Hvalue _ IH]; [done|]. simpl.
  by rewrite decode_ascii, IH, map_app.
Qed.

(** * Further properties of the handlers *)

(** ** What a handler run leaves alone, field by field *)

Lemma renderComponent_frame (h : Host) (p : ComponentProps) (w : World) :
  let w' := exec (renderComponent h p) w in
  code (state w') = code (state w)
  ∧ history (state w') = history (state w)
  ∧ streamingResponse (state w') = streamingResponse (state w)
  ∧ aiPrompt (state w') = aiPrompt (state w)
  ∧ isUpdating (state w') = isUpdating (state w)
  ∧ customPrompts (state w') = customPrompts (state w)
  ∧ localStorage w' = localStorage w.
Proof.
  run. destruct (babelLoaded w && isSome (babel w)); simpl; cases.
Qed.

Lemma updateWithAI_frame (h : Host) (w : World) :
  let w' := exec (updateWithAI h) w in
  code (state w') = code (state w)
  ∧ history (state w') = history (state w)
  ∧ streamingResponse (state w') = streamingResponse (state w)
  ∧ aiPrompt (state w') = aiPrompt (state w)
  ∧ preview (state w') = preview (state w)
  ∧ customPrompts (state w') = customPrompts (state w)
  ∧ localStorage w' = localStorage w
  ∧ babel w' = babel w
  ∧ babelLoaded w' = babelLoaded w.
Proof. run. cases. Qed.

Lemma handleRetry_cases (h : Host) (p : ComponentProps) (w : World) :
  exec (handleRetry h p) w
  = if (retryCount (state w) <? MAX_RETRIES)%Z
    then exec (renderComponent h p)
           (exec (updateState
                    (Obj [p_retryCount (retryCount (state w) + 1)%Z])) w)
    else exec (updateState (Obj [p_retryCount 0%Z])) w.
Proof.
  unfold handleRetry, exec, mbind, M_bind, getState. simpl.
  by destruct (retryCount (state w) <? MAX_RETRIES)%Z.
Qed.

Lemma renderEffect_cases (h : Host) (p : ComponentProps) (w : World) :
  exec (renderEffect h p) w
  = if renderTrigger (state w) then exec (renderComponent h p) w else w.
Proof.
  unfold renderEffect, exec, mbind, M_bind, getState. simpl.
  by destruct (renderTrigger (state w)).
Qed.

Lemma reachable_invariant (p : ComponentProps) (P : World → Prop)
    (stored : option (list JSString)) :
  P (mount p stored) →
  (∀ w w', step p w w' → P w → P w') →
  ∀ w, reachable p stored w → P w.
Proof.
  intros Hmount Hstep w Hreach. unfold reachable in Hreach.
  revert w Hreach. apply (rtc_ind_r P); eauto.
Qed.

(** Further hosts and worlds to run the handlers on. *)
Module More.

(** A host whose parser rejects every text with one diagnostic. *)
Definition strict (r : Response) : Host :=
  mkHost None true (Some Run.plainBabel) Run.engine
    (λ _, Throw (str "Unexpected token")) r (λ _, Normal ()).

(** A compiler that reports every source as malformed. *)
Definition failingBabel : Babel :=
  λ _ _, Throw (str "preview.jsx: Unexpected token (1:9)").

Definition miscompiling : Host :=
  mkHost None true (Some failingBabel) Run.engine (λ _, Normal ())
    (NetworkFault (str "Failed to fetch")) (λ _, Normal ()).

(** A compiler that yields no text. *)
Definition silentBabel : Babel := λ _ _, Normal [].

Definition silent : Host :=
  mkHost None true (Some silentBabel) Run.engine (λ _, Normal ())
    (NetworkFault (str "Failed to fetch")) (λ _, Normal ()).

Definition throwing : ComponentProps := mkProps Run.faulty [] false.

(** A script that throws [null], and a host whose engine runs it. *)
Definition throwingNull : ComponentProps :=
  mkProps (str "throw null;") [] false.

Definition bare : Host :=
  mkHost None true (Some Run.plainBabel)
    (λ body module,
       if decide (body = str "throw null;") then ThrowNullish null
       else Run.engine body module)
    (λ _, Normal ()) (NetworkFault (str "Failed to fetch")) (λ _, Normal ()).

(** A host whose store is full. *)
Definition full : Host :=
  mkHost None true (Some Run.plainBabel) Run.engine (λ _, Normal ())
    (NetworkFault (str "Failed to fetch"))
    (λ _, Throw (str "The quota has been exceeded.")).

(** A world whose instruction is made of spaces. *)
Definition spaces : World := exec (commitPrompt (str "   ")) Run.rendered.

(** A world with a snapshot in [history], as line 209 would leave it. *)
Definition snapshot : World :=
  mkWorld
    (assign (state Run.prompted) (p_history [str "function Z() {}"]))
    (babel Run.prompted) (babelLoaded Run.prompted)
    (localStorage Run.prompted) (trace Run.prompted).

End More.

(** ** Submission *)

(** X1.  A blank instruction, whitespace included, records the message
    "Please enter a prompt for the AI" in [error] and does nothing else: no
    request is issued, [isUpdating] and the status are not touched. *)
Theorem blank_instruction_only_records (h : Host) (w : World) :
  truthy (trim (aiPrompt (state w))) = false →
  exec (updateWithAI h) w
  = mkWorld
      (assign (state w)
         (p_error (Some (str "Please enter a prompt for the AI"))))
      (babel w) (babelLoaded w) (localStorage w) (trace w).
Proof. intros Hblank. run. rewrite Hblank. by simpl. Qed.

Lemma blank_instruction_only_records_witness :
  exec (updateWithAI Run.offline) More.spaces
  = mkWorld
      (assign (state More.spaces)
         (p_error (Some (str "Please enter a prompt for the AI"))))
      (babel More.spaces) (babelLoaded More.spaces)
      (localStorage More.spaces) (trace More.spaces).
Proof.
  apply (blank_instruction_only_records Run.offline More.spaces).
  reflexivity.
Defined.

(** X2.  An answer that arrives whole, is not markup and does not parse
    sets the status to "error", clears [isUpdating] and keeps [code]; the
    message recorded is built from the fixed text "Invalid JavaScript code",
    whatever the parser reported. *)
Theorem unparsable_answer_state (h : Host) (w : World) (text : JSString) :
  truthy (trim (aiPrompt (state w))) = true →
  unparsable h text →
  let s' := after (updateWithAI h) w in
  loadingStatus s' = Status.error
  ∧ isUpdating s' = false
  ∧ code s' = code (state w)
  ∧ error s'
    = Some (str "AI response contains invalid JavaScript code: Invalid JavaScript code. Try refining the prompt.").
Proof.
  intros Hprompt Hbad s'. subst s'.
  by rewrite (updateWithAI_unparsable_state h w text Hprompt Hbad).
Qed.

Lemma unparsable_answer_state_witness :
  let s' := after (updateWithAI (More.strict (Run.answer "function ( { ")))
              Run.prompted in
  loadingStatus s' = Status.error
  ∧ isUpdating s' = false
  ∧ code s' = str "function A() {}"
  ∧ error s'
    = Some (str "AI response contains invalid JavaScript code: Invalid JavaScript code. Try refining the prompt.").
Proof.
  apply (unparsable_answer_state (More.strict (Run.answer "function ( { "))
           Run.prompted (str "function ( { ")).
  - reflexivity.
  - exists 200%Z, [Run.bytes "function ( { "], (str "Unexpected token").
    repeat split; reflexivity.
Defined.

(** X3.  A submission with a non-blank instruction issues exactly one
    request, to the assistant endpoint, carrying the system directive and
    the instruction with the current [code], whatever the answer turns out to
    be; it appends no script and starts no render cycle. *)
Theorem submission_issues_one_request (h : Host) (w : World) :
  truthy (trim (aiPrompt (state w))) = true →
  trace (exec (updateWithAI h) w)
  = trace w ++ [Fetch endpoint (messages (state w))].
Proof. intros Hprompt. run. rewrite Hprompt. simpl. cases. Qed.

Lemma submission_issues_one_request_witness :
  trace (exec (updateWithAI Run.offline) Run.prompted)
  = trace Run.prompted ++ [Fetch endpoint (messages (state Run.prompted))].
Proof.
  apply (submission_issues_one_request Run.offline Run.prompted).
  reflexivity.
Defined.

(** X4.  No run of [updateWithAI], whatever the instruction and whatever
    the host answers, changes [code], [history] or [preview]. *)
Theorem submission_never_replaces_code (h : Host) (w : World) :
  code (after (updateWithAI h) w) = code (state w)
  ∧ history (after (updateWithAI h) w) = history (state w)
  ∧ preview (after (updateWithAI h) w) = preview (state w).
Proof.
  destruct (updateWithAI_frame h w) as (Hc & Hh & _ & _ & Hp & _).
  by repeat split.
Qed.

(** X5.  Undo with a snapshot in [history] neither restores the snapshot
    nor removes it: [code] and [history] are as before. *)
Theorem undo_keeps_snapshot (w : World) (older : list JSString)
    (lastCode : JSString) :
  history (state w) = older ++ [lastCode] →
  code (after undoLastChange w) = code (state w)
  ∧ history (after undoLastChange w) = older ++ [lastCode].
Proof.
  intros Hhistory. unfold after. rewrite undoLastChange_world.
  by rewrite Hhistory.
Qed.

Lemma undo_keeps_snapshot_witness :
  code (after undoLastChange More.snapshot) = str "function A() {}"
  ∧ history (after undoLastChange More.snapshot) = [str "function Z() {}"].
Proof.
  apply (undo_keeps_snapshot More.snapshot [] (str "function Z() {}")).
  reflexivity.
Defined.

(** ** Render cycles *)

Definition isFetch (e : Effect) : bool :=
  match e with Fetch _ _ => true | _ => false end.

(** Requests sent to the assistant so far. *)
Definition requests (w : World) : nat :=
  length (List.filter isFetch (trace w)).

Lemma renderComponent_fetches (h : Host) (p : ComponentProps) (w : World) :
  fetches (exec (renderComponent h p) w)
  = if loaded w then fetches w else S (fetches w).
Proof.
  unfold fetches. rewrite renderComponent_trace, List.filter_app, length_app.
  destruct (loaded w); simpl; lia.
Qed.

(** X6.  When the compiler script cannot be fetched, the cycle ends in
    status "error" with the message "Error during transpilation: Failed to
    load Babel" (the loader's own message is overwritten), the preview shown
    before is kept, nothing is cached, and the next cycle fetches the script
    again. *)
Theorem failed_load_is_not_cached (h h' : Host) (p : ComponentProps)
    (w : World) :
  loaded w = false →
  scriptLoads h = false →
  let s := state w in
  let w' := exec (renderComponent h p) w in
  state w'
  = mkState (Some (str "Error during transpilation: Failed to load Babel"))
      Status.error (preview s) (code s) (streamingResponse s) (aiPrompt s)
      (isUpdating s) (retryCount s) (customPrompts s) (history s)
  ∧ loaded w' = false
  ∧ fetches (exec (renderComponent h' p) w') = S (fetches w').
Proof.
  intros Hl Hs s w'.
  assert (loaded w' = false) as Hl'.
  { subst w'. unfold loaded in *. run. by rewrite Hl, Hs. }
  split; [|split; [exact Hl'|]].
  - subst w'. unfold loaded in *. run. by rewrite Hl, Hs.
  - by rewrite renderComponent_fetches, Hl'.
Qed.

Lemma failed_load_is_not_cached_witness :
  let w' := exec (renderComponent Run.blocked Run.props) Run.fresh in
  state w'
  = mkState (Some (str "Error during transpilation: Failed to load Babel"))
      Status.error None (str "function A() {}") [] [] false 0%Z [] []
  ∧ loaded w' = false
  ∧ fetches (exec (renderComponent Run.offline Run.props) w') = 2%nat.
Proof.
  apply (failed_load_is_not_cached Run.blocked Run.offline Run.props Run.fresh);
    reflexivity.
Defined.

(** X7.  When the compiler rejects the source, the cycle ends in status
    "error" with the compiler's diagnostic behind "Error during
    transpilation: "; [code] and the preview shown before are kept. *)
Theorem rejected_source_state (h : Host) (p : ComponentProps) (w : World)
    (transform : Babel) (diagnostic : JSString) :
  compiler h w = Some transform →
  transform (source p w) transformOptions = Throw diagnostic →
  let s := state w in
  after (renderComponent h p) w
  = mkState (Some (str "Error during transpilation: " ++ diagnostic))
      Status.error (preview s) (code s) (streamingResponse s) (aiPrompt s)
      (isUpdating s) (retryCount s) (customPrompts s) (history s).
Proof.
  intros Hc Ht s. unfold compiler, source, loaded in *. run.
  destruct (babelLoaded w && isSome (babel w)); simpl in *.
  - rewrite Hc. simpl. by rewrite Ht.
  - destruct (scriptLoads h); [|done]. simpl. rewrite Hc. simpl.
    by rewrite Ht.
Qed.

Lemma rejected_source_state_witness :
  after (renderComponent More.miscompiling Run.props) Run.fresh
  = mkState
      (Some (str "Error during transpilation: preview.jsx: Unexpected token (1:9)"))
      Status.error None (str "function A() {}") [] [] false 0%Z [] [].
Proof.
  apply (rejected_source_state More.miscompiling Run.props Run.fresh
           More.failingBabel (str "preview.jsx: Unexpected token (1:9)"));
    reflexivity.
Defined.

(** X8.  When the compiled text throws a value with a message while it
    is built or run, the cycle ends in status "error" with that message
    behind "Runtime error: " and the preview shown before is kept.  When it
    throws [null] or [undefined], reading the message at line 147 throws in
    turn: the call ends rejected with that TypeError, nothing is recorded,
    and the status is what the loader left. *)
Theorem thrown_script_state (h : Host) (p : ComponentProps) (w : World)
    (body : JSString) :
  transpiles h p w body →
  let s := state w in
  (∀ message,
     invoke h body (mkModule (JSObj [])) = Throw message →
     after (renderComponent h p) w
     = mkState (Some (str "Runtime error: " ++ message))
         Status.error (preview s) (code s) (streamingResponse s) (aiPrompt s)
         (isUpdating s) (retryCount s) (customPrompts s) (history s))
  ∧ (∀ value,
       invoke h body (mkModule (JSObj [])) = ThrowNullish value →
       (renderComponent h p w).1 = Throw (cannotRead value)
       ∧ after (renderComponent h p) w
         = mkState (error s)
             (if loaded w then loadingStatus s else Status.idle)
             (preview s) (code s) (streamingResponse s) (aiPrompt s)
             (isUpdating s) (retryCount s) (customPrompts s) (history s)).
Proof.
  intros (transform & Hc & Ht & Hb) s.
  split; [intros message Hrun|intros value Hrun];
    unfold compiler, source, loaded in *; run;
    (destruct (babelLoaded w && isSome (babel w)); simpl in *;
     [|destruct (scriptLoads h); [|done]; simpl]);
    rewrite Hc; simpl; rewrite Ht; simpl; rewrite Hb; simpl;
    rewrite Hrun; simpl; try done.
  split; [done|]. symmetry. apply state_eta.
Qed.

Lemma thrown_script_state_witness :
  after (renderComponent Run.offline More.throwing) (mount More.throwing None)
  = mkState (Some (str "Runtime error: boom")) Status.error None Run.faulty
      [] [] false 0%Z [] []
  ∧ after (renderComponent More.bare More.throwingNull)
      (mount More.throwingNull None)
    = mkState None Status.idle None (str "throw null;") [] [] false 0%Z [] [].
Proof.
  split.
  - apply (proj1 (thrown_script_state Run.offline More.throwing
                    (mount More.throwing None) Run.faulty
                    (ex_intro _ Run.plainBabel
                       (conj eq_refl (conj eq_refl eq_refl))))).
    reflexivity.
  - apply (proj2 (thrown_script_state More.bare More.throwingNull
                    (mount More.throwingNull None) (str "throw null;")
                    (ex_intro _ Run.plainBabel
                       (conj eq_refl (conj eq_refl eq_refl)))) null).
    reflexivity.
Defined.

(** X9.  When the compiler yields the empty text, the cycle stops at line
    130 without a word: no error is recorded and no preview is made; the
    status is what the loader left, "idle" after a load and unchanged when
    the compiler was cached. *)
Theorem empty_output_is_dropped (h : Host) (p : ComponentProps) (w : World)
    (transform : Babel) :
  compiler h w = Some transform →
  transform (source p w) transformOptions = Normal [] →
  let s := state w in
  after (renderComponent h p) w
  = mkState (error s)
      (if loaded w then loadingStatus s else Status.idle)
      (preview s) (code s) (streamingResponse s) (aiPrompt s)
      (isUpdating s) (retryCount s) (customPrompts s) (history s).
Proof.
  intros Hc Ht s. unfold compiler, source, loaded in *. run.
  destruct (babelLoaded w && isSome (babel w)); simpl in *.
  - rewrite Hc. simpl. rewrite Ht. simpl. symmetry. apply state_eta.
  - destruct (scriptLoads h); [|done]. simpl. rewrite Hc. simpl.
    by rewrite Ht.
Qed.

Lemma empty_output_is_dropped_witness :
  after (renderComponent More.silent Run.props) Run.fresh
  = mkState None Status.idle None (str "function A() {}") [] [] false 0%Z
      [] [].
Proof.
  apply (empty_output_is_dropped More.silent Run.props Run.fresh
           More.silentBabel).
  - reflexivity.
  - reflexivity.
Defined.

(** X10.  A render cycle appends one script element when the compiler is
    not cached and none when it is, calls [renderComponent] once, and sends
    nothing to the assistant. *)
Theorem render_cycle_effects (h : Host) (p : ComponentProps) (w : World) :
  let w' := exec (renderComponent h p) w in
  fetches w' = (if loaded w then fetches w else S (fetches w))
  ∧ renders w' = S (renders w)
  ∧ requests w' = requests w.
Proof.
  intros w'. subst w'.
  split; [apply renderComponent_fetches|].
  split; [apply renderComponent_renders|].
  unfold requests. rewrite renderComponent_trace, List.filter_app, length_app.
  destruct (loaded w); simpl; lia.
Qed.

Lemma renderComponent_caches (h : Host) (p : ComponentProps) (w : World)
    (transform : Babel) :
  compiler h w = Some transform → loaded (exec (renderComponent h p) w) = true.
Proof.
  intros Hc. destruct (loaded w) eqn:Hl.
  - by apply renderComponent_loaded.
  - unfold compiler in Hc. rewrite Hl in Hc.
    destruct (scriptLoads h) eqn:Hs; [|done].
    unfold loaded in *. run. rewrite Hl, Hs. simpl. rewrite Hc. simpl. cases.
Qed.

(** X11.  A cycle that got hold of the compiler, by the cache or by a load
    that defined [window.Babel], leaves it cached whether or not the source
    then compiles and runs: no later cycle, in any order with the other
    handlers, appends a script again. *)
Theorem compiler_is_fetched_once (h h' : Host) (p : ComponentProps)
    (w w' : World) (transform : Babel) :
  compiler h w = Some transform →
  rtc (step p) (exec (renderComponent h p) w) w' →
  fetches (exec (renderComponent h' p) w') = fetches w'.
Proof.
  intros Hc Hsteps.
  rewrite renderComponent_fetches.
  by rewrite (steps_loaded p _ _ Hsteps (renderComponent_caches h p w _ Hc)).
Qed.

Lemma compiler_is_fetched_once_witness :
  let w := exec (renderComponent More.miscompiling Run.props) Run.fresh in
  fetches (exec (renderComponent Run.offline Run.props) w) = fetches w
  ∧ fetches w = 1%nat.
Proof.
  split; [|reflexivity].
  apply (compiler_is_fetched_once More.miscompiling Run.offline Run.props
           Run.fresh _ More.failingBabel).
  - reflexivity.
  - apply rtc_refl.
Defined.

(** ** Invariants of the session *)

Definition readyHasPreview (w : World) : Prop :=
  loadingStatus (state w) = Status.ready → isSome (preview (state w)) = true.

Lemma renderComponent_readyHasPreview (h : Host) (p : ComponentProps)
    (w : World) :
  readyHasPreview w → readyHasPreview (exec (renderComponent h p) w).
Proof.
  unfold readyHasPreview. intros Hw. run.
  destruct (babelLoaded w && isSome (babel w)); simpl; cases.
Qed.

Lemma updateWithAI_readyHasPreview (h : Host) (w : World) :
  readyHasPreview w → readyHasPreview (exec (updateWithAI h) w).
Proof. unfold readyHasPreview. intros Hw. run. cases. Qed.

Lemma step_readyHasPreview (p : ComponentProps) (w w' : World) :
  step p w w' → readyHasPreview w → readyHasPreview w'.
Proof.
  intros Hstep Hw.
  destruct Hstep as [v w|v w|h w _|h w|w|h w m _|h w|item w];
    [| | | | | | |exact Hw].
  - exact Hw.
  - exact Hw.
  - by apply updateWithAI_readyHasPreview.
  - rewrite saveCustomPrompt_cases. by destruct (setItem h _).
  - by rewrite undoLastChange_world.
  - rewrite handleRetry_cases.
    destruct (retryCount (state w) <? MAX_RETRIES)%Z; [|exact Hw].
    by apply renderComponent_readyHasPreview.
  - rewrite renderEffect_cases.
    destruct (renderTrigger (state w)); [|exact Hw].
    by apply renderComponent_readyHasPreview.
Qed.

(** The fields that no handler writes. *)
Definition settled (w : World) : Prop :=
  history (state w) = []
  ∧ streamingResponse (state w) = [].

Lemma step_settled (p : ComponentProps) (w w' : World) :
  step p w w' → settled w → settled w'.
Proof.
  unfold settled. intros Hstep (Hh & Hs).
  destruct Hstep as [v w|v w|h w _|h w|w|h w m _|h w|item w]; [| | | | | | |done].
  - done.
  - done.
  - destruct (updateWithAI_frame h w) as (_ & -> & -> & _).
    done.
  - rewrite saveCustomPrompt_cases. by destruct (setItem h _).
  - by rewrite undoLastChange_world.
  - rewrite handleRetry_cases.
    destruct (retryCount (state w) <? MAX_RETRIES)%Z; [|done].
    destruct (renderComponent_frame h p
                (exec (updateState
                         (Obj [p_retryCount (retryCount (state w) + 1)%Z])) w))
      as (_ & -> & -> & _).
    done.
  - rewrite renderEffect_cases.
    destruct (renderTrigger (state w)); [|done].
    destruct (renderComponent_frame h p w) as (_ & -> & -> & _).
    done.
Qed.

Lemma step_isUpdating (p : ComponentProps) (w w' : World) :
  step p w w' → isUpdating (state w) = true → isUpdating (state w') = true.
Proof.
  intros Hstep Hu.
  destruct Hstep as [v w|v w|h w Hfree|h w|w|h w m _|h w|item w];
    [| | | | | | |exact Hu].
  - exact Hu.
  - exact Hu.
  - congruence.
  - rewrite saveCustomPrompt_cases. by destruct (setItem h _).
  - by rewrite undoLastChange_world.
  - rewrite handleRetry_cases.
    destruct (retryCount (state w) <? MAX_RETRIES)%Z; [|exact Hu].
    destruct (renderComponent_frame h p
                (exec (updateState
                         (Obj [p_retryCount (retryCount (state w) + 1)%Z])) w))
      as (_ & _ & _ & _ & -> & _).
    exact Hu.
  - rewrite renderEffect_cases.
    destruct (renderTrigger (state w)); [|exact Hu].
    destruct (renderComponent_frame h p w) as (_ & _ & _ & _ & -> & _).
    exact Hu.
Qed.

Lemma reached_rendered : reachable Run.props None Run.rendered.
Proof.
  unfold reachable.
  apply (rtc_once _ _ (step_effect Run.props Run.offline Run.fresh)).
Defined.

Lemma reachable_settled (p : ComponentProps) (stored : option (list JSString))
    (w : World) :
  reachable p stored w → settled w.
Proof.
  apply (reachable_invariant p settled).
  - by repeat split.
  - apply step_settled.
Qed.

(** X12.  In every state the handlers can reach, [history] is empty:
    nothing is ever pushed, so there is never a snapshot to undo to. *)
Theorem history_stays_empty (p : ComponentProps)
    (stored : option (list JSString)) (w : World) :
  reachable p stored w → history (state w) = [].
Proof. intros Hreach. apply (reachable_settled p stored w Hreach). Qed.

Lemma history_stays_empty_witness : history (state Run.rendered) = [].
Proof.
  apply (history_stays_empty Run.props None Run.rendered reached_rendered).
Defined.

(** The condition of lines 316-322, under which the note "Processing AI
    response..." is shown. *)
Definition showsProcessing (s : State) : bool := truthy (streamingResponse s).

(** X13.  No handler writes [streamingResponse]: in every reachable state
    it is the empty string and the processing note is not shown, also while
    a submission is under way. *)
Theorem processing_note_never_shown (p : ComponentProps)
    (stored : option (list JSString)) (w : World) :
  reachable p stored w → showsProcessing (state w) = false.
Proof.
  intros Hreach. unfold showsProcessing.
  destruct (reachable_settled p stored w Hreach) as (_ & ->). done.
Qed.

Lemma processing_note_never_shown_witness :
  showsProcessing (state Run.prompted) = false.
Proof.
  apply (processing_note_never_shown Run.props None Run.prompted).
  unfold reachable.
  apply (rtc_l _ _ _ _ (step_effect Run.props Run.offline Run.fresh)).
  apply (rtc_once _ _ (step_prompt Run.props (str "Add a button") Run.rendered)).
Defined.

(** X15.  Whenever the status is "ready" in a reachable state, [preview]
    holds an element: the panel then shows either that element or, when a
    message is recorded, the error. *)
Theorem ready_has_preview (p : ComponentProps)
    (stored : option (list JSString)) (w : World) :
  reachable p stored w →
  loadingStatus (state w) = Status.ready →
  ∃ element, preview (state w) = Some element.
Proof.
  intros Hreach Hready.
  assert (readyHasPreview w) as Hw.
  { revert Hreach. apply (reachable_invariant p readyHasPreview).
    - by intros Hready'.
    - apply step_readyHasPreview. }
  specialize (Hw Hready). destruct (preview (state w)); [eauto|done].
Qed.

Lemma ready_has_preview_witness :
  ∃ element, preview (state Run.rendered) = Some element.
Proof.
  apply (ready_has_preview Run.props None Run.rendered reached_rendered).
  reflexivity.
Defined.

Lemma steps_isUpdating (p : ComponentProps) (w w' : World) :
  rtc (step p) w w' →
  isUpdating (state w) = true → isUpdating (state w') = true.
Proof. induction 1; eauto using step_isUpdating. Qed.

(** X16.  After a submission that succeeds, [isUpdating] is true and stays
    true through every later handler: the submit button stays disabled, and
    the render effect never starts a cycle again. *)
Theorem accepted_submission_locks (h h' : Host) (p : ComponentProps)
    (w w' : World) (text : JSString) :
  truthy (trim (aiPrompt (state w))) = true →
  accepted h text →
  rtc (step p) (exec (updateWithAI h) w) w' →
  isUpdating (state w') = true
  ∧ exec (renderEffect h' p) w' = w'.
Proof.
  intros Hprompt Haccepted Hsteps.
  assert (isUpdating (state w') = true) as Hu.
  { apply (steps_isUpdating p _ _ Hsteps).
    change (state (exec (updateWithAI h) w)) with (after (updateWithAI h) w).
    by rewrite (updateWithAI_accepted h w text Hprompt Haccepted). }
  split; [exact Hu|].
  rewrite renderEffect_cases. unfold renderTrigger. rewrite Hu.
  by rewrite andb_false_r.
Qed.

Lemma accepted_submission_locks_witness :
  let w' := exec (editCode (str "function C() {}"))
              (exec (updateWithAI (Run.host (Run.answer "function B() {}")))
                 Run.prompted) in
  isUpdating (state w') = true
  ∧ exec (renderEffect Run.offline Run.props) w' = w'.
Proof.
  apply (accepted_submission_locks (Run.host (Run.answer "function B() {}"))
           Run.offline Run.props Run.prompted _ (str "function B() {}")).
  - reflexivity.
  - exists 200%Z, [Run.bytes "function B() {}"]. repeat split; reflexivity.
  - apply (rtc_once _ _ (step_edit Run.props (str "function C() {}") _)).
Defined.

(** X17.  The text area is the only way [code] changes: every other
    handler, the submission and the undo among them, ends with the [code] it
    started with. *)
Theorem only_edits_change_code (p : ComponentProps) (w w' : World) :
  step p w w' →
  code (state w') = code (state w)
  ∨ ∃ value, w' = exec (editCode value) w.
Proof.
  intros Hstep.
  destruct Hstep as [v w|v w|h w _|h w|w|h w m _|h w|item w];
    [| | | | | | |by left].
  - right. by exists v.
  - by left.
  - left. apply updateWithAI_frame.
  - left. rewrite saveCustomPrompt_cases. by destruct (setItem h _).
  - left. by rewrite undoLastChange_world.
  - left. rewrite handleRetry_cases.
    destruct (retryCount (state w) <? MAX_RETRIES)%Z; [|done].
    apply (renderComponent_frame h p
             (exec (updateState
                      (Obj [p_retryCount (retryCount (state w) + 1)%Z])) w)).
  - left. rewrite renderEffect_cases.
    destruct (renderTrigger (state w)); [|done].
    apply (renderComponent_frame h p w).
Qed.

Lemma only_edits_change_code_witness :
  let w' := exec (updateWithAI (Run.host (Run.answer "function B() {}")))
              Run.prompted in
  code (state w') = code (state Run.prompted)
  ∨ ∃ value, w' = exec (editCode value) Run.prompted.
Proof.
  apply (only_edits_change_code Run.props Run.prompted).
  apply (step_submit Run.props (Run.host (Run.answer "function B() {}"))
           Run.prompted).
  reflexivity.
Defined.

(** ** Saved prompts *)

(** X18.  A save whose [setItem] succeeds appends the instruction as it
    is, blank or already in the list, to [customPrompts], overwrites the
    stored item with that list whatever it held, and changes no other field.
    A save whose [setItem] throws changes nothing at all: neither the list
    in memory nor the stored item. *)
Theorem save_appends_or_nothing (h : Host) (w : World) :
  let s := state w in
  let saved := customPrompts s ++ [aiPrompt s] in
  (setItem h saved = Normal () →
     exec (saveCustomPrompt h) w
     = mkWorld
         (mkState (error s) (loadingStatus s) (preview s) (code s)
            (streamingResponse s) (aiPrompt s) (isUpdating s) (retryCount s)
            saved (history s))
         (babel w) (babelLoaded w) (Some saved) (trace w))
  ∧ (∀ message, setItem h saved = Throw message →
       saveCustomPrompt h w = (Throw message, w)).
Proof.
  intros s saved. subst s saved. split.
  - intros Hstored. rewrite saveCustomPrompt_cases. by rewrite Hstored.
  - intros message Hfull.
    unfold saveCustomPrompt, mbind, M_bind, getState, lift. simpl.
    by rewrite Hfull.
Qed.

Lemma save_appends_or_nothing_witness :
  customPrompts (after (saveCustomPrompt Run.offline) Run.prompted)
  = [str "Add a button"]
  ∧ localStorage (exec (saveCustomPrompt Run.offline) Run.prompted)
    = Some [str "Add a button"]
  ∧ saveCustomPrompt More.full Run.prompted
    = (Throw (str "The quota has been exceeded."), Run.prompted).
Proof.
  destruct (save_appends_or_nothing Run.offline Run.prompted) as [Hsaved _].
  destruct (save_appends_or_nothing More.full Run.prompted) as [_ Hfull].
  split; [|split].
  - unfold after. rewrite Hsaved; reflexivity.
  - rewrite Hsaved; reflexivity.
  - apply Hfull. reflexivity.
Defined.

(** ** Stripping inline styles *)

Lemma replaceStyle_sublist (s : JSString) (skip : nat) :
  replaceStyle skip s `sublist_of` s.
Proof.
  revert skip. induction s as [|c t IH]; intros skip; simpl; [done|].
  destruct skip as [|k].
  - destruct (matchStyle (c :: t)) as [n|].
    + by apply sublist_cons.
    + by apply sublist_skip.
  - by apply sublist_cons.
Qed.

(** X19.  Stripping inline styles only deletes: the result is the source
    with some code units left out, in their order, and is never longer. *)
Theorem stripping_only_deletes (s : JSString) :
  replaceStyle 0 s `sublist_of` s
  ∧ (length (replaceStyle 0 s) ≤ length s)%nat.
Proof.
  split; [apply replaceStyle_sublist|].
  apply sublist_length, replaceStyle_sublist.
Qed.

Lemma replaceStyle_skip (dropped rest : JSString) :
  replaceStyle (length dropped) (dropped ++ rest) = replaceStyle 0 rest.
Proof. induction dropped as [|c t IH]; simpl; [by destruct rest|exact IH]. Qed.

(** Code units allowed in the style object of the next two properties: no
    closing brace and no line terminator. *)
Definition plain (body : JSString) : Prop :=
  Forall (λ c, c ≠ 125 ∧ isLineTerminator c = false) body.

Lemma startsWith_nil (s : JSString) : startsWith s [] = true.
Proof. by destruct s. Qed.

Lemma str_close : str "}}" = [125; 125].
Proof. reflexivity. Qed.

Lemma str_open : str "style={{" = [115; 116; 121; 108; 101; 61; 123; 123].
Proof. reflexivity. Qed.

Lemma startsWith_other (c d : N) (s p : JSString) :
  c ≠ d → startsWith (c :: s) (d :: p) = false.
Proof. intros Hne. simpl. by destruct (N.eqb_spec d c). Qed.

Lemma lazyUntilClose_step (c : N) (s : JSString) :
  c ≠ 125 →
  lazyUntilClose (c :: s)
  = if isLineTerminator c then None else S <$> lazyUntilClose s.
Proof.
  intros Hc. cbn [lazyUntilClose]. rewrite str_close.
  by rewrite (startsWith_other c 125 s [125] Hc).
Qed.

Lemma lazyUntilClose_plain (body rest : JSString) :
  plain body →
  lazyUntilClose (body ++ str "}}" ++ rest) = Some (length body + 2)%nat.
Proof.
  induction 1 as [|c body [Hc Hl] _ IH].
  - rewrite str_close. cbn [app lazyUntilClose]. rewrite str_close. simpl.
    by rewrite startsWith_nil.
  - change ((c :: body) ++ str "}}" ++ rest)
      with (c :: (body ++ str "}}" ++ rest)).
    by rewrite (lazyUntilClose_step c _ Hc), Hl, IH.
Qed.

Lemma lazyUntilClose_broken (body rest : JSString) (terminator : N) :
  plain body →
  isLineTerminator terminator = true →
  lazyUntilClose (body ++ terminator :: rest) = None.
Proof.
  intros Hplain Hterm. induction Hplain as [|c body [Hc Hl] _ IH].
  - cbn [app]. rewrite lazyUntilClose_step; [by rewrite Hterm|].
    intros ->. done.
  - change ((c :: body) ++ terminator :: rest)
      with (c :: (body ++ terminator :: rest)).
    by rewrite (lazyUntilClose_step c _ Hc), Hl, IH.
Qed.

Lemma matchStyle_open (s : JSString) :
  matchStyle (str "style={{" ++ s) = (λ n, 8 + n)%nat <$> lazyUntilClose s.
Proof.
  unfold matchStyle. rewrite str_open.
  assert (startsWith ([115; 116; 121; 108; 101; 61; 123; 123] ++ s)
            [115; 116; 121; 108; 101; 61; 123; 123] = true) as ->; [|done].
  simpl. apply startsWith_nil.
Qed.

Lemma matchStyle_other (c : N) (s : JSString) :
  c ≠ 115 → matchStyle (c :: s) = None.
Proof.
  intros Hc. unfold matchStyle. rewrite str_open.
  by rewrite (startsWith_other c 115 s _ Hc).
Qed.

Lemma replaceStyle_match (c : N) (t : JSString) (n : nat) :
  matchStyle (c :: t) = Some n →
  replaceStyle 0 (c :: t) = replaceStyle (n - 1) t.
Proof. intros Hm. cbn [replaceStyle]. by rewrite Hm. Qed.

Lemma replaceStyle_nomatch (c : N) (t : JSString) :
  matchStyle (c :: t) = None →
  replaceStyle 0 (c :: t) = c :: replaceStyle 0 t.
Proof. intros Hm. cbn [replaceStyle]. by rewrite Hm. Qed.

(** X20.  A style attribute at the head of the text whose object closes on
    the same line is removed whole, braces included, and stripping goes on
    behind it. *)
Theorem one_line_style_is_removed (body rest : JSString) :
  plain body →
  replaceStyle 0 (str "style={{" ++ body ++ str "}}" ++ rest)
  = replaceStyle 0 rest.
Proof.
  intros Hplain.
  assert (matchStyle (str "style={{" ++ body ++ str "}}" ++ rest)
          = Some (8 + (length body + 2))%nat) as Hm.
  { by rewrite matchStyle_open, (lazyUntilClose_plain body rest Hplain). }
  rewrite str_open in *. cbn [app] in *.
  rewrite (replaceStyle_match _ _ _ Hm).
  set (dropped := [116; 121; 108; 101; 61; 123; 123] ++ body ++ str "}}").
  replace (116 :: 121 :: 108 :: 101 :: 61 :: 123 :: 123
             :: body ++ str "}}" ++ rest)
    with (dropped ++ rest)
    by (subst dropped; cbn [app]; by rewrite <- app_assoc).
  replace (8 + (length body + 2) - 1)%nat with (length dropped)
    by (subst dropped; rewrite !length_app, str_close; simpl; lia).
  apply replaceStyle_skip.
Qed.

Lemma one_line_style_is_removed_witness :
  replaceStyle 0 (str "style={{" ++ str "color: 'red'" ++ str "}}"
                    ++ str " id='a'>")
  = str " id='a'>".
Proof.
  rewrite (one_line_style_is_removed (str "color: 'red'") (str " id='a'>")).
  - reflexivity.
  - unfold plain. repeat constructor; discriminate.
Defined.

(** X21.  A style attribute whose object is broken by a line terminator
    before it closes is not removed: the attribute's opening stays in the
    text and stripping goes on inside it. *)
Theorem broken_style_is_kept (body rest : JSString) (terminator : N) :
  plain body →
  isLineTerminator terminator = true →
  replaceStyle 0 (str "style={{" ++ body ++ terminator :: rest)
  = str "style={{" ++ replaceStyle 0 (body ++ terminator :: rest).
Proof.
  intros Hplain Hterm.
  assert (matchStyle (str "style={{" ++ body ++ terminator :: rest) = None)
    as Hm.
  { by rewrite matchStyle_open,
         (lazyUntilClose_broken body rest terminator Hplain Hterm). }
  rewrite str_open in *. cbn [app] in *.
  rewrite (replaceStyle_nomatch _ _ Hm).
  by rewrite !replaceStyle_nomatch by (by apply matchStyle_other).
Qed.

Lemma broken_style_is_kept_witness :
  replaceStyle 0 (str "style={{" ++ str "color: 'red'," ++ 10 :: str "}}>")
  = str "style={{" ++ str "color: 'red'," ++ 10 :: str "}}>".
Proof.
  rewrite (broken_style_is_kept (str "color: 'red',") (str "}}>") 10).
  - reflexivity.
  - unfold plain. repeat constructor; discriminate.
  - reflexivity.
Defined.

(** ** The accumulated response, again *)

(** X22.  For a response made of ASCII bytes the accumulated text does not
    depend on where the stream is cut: two sequences of chunks with the same
    bytes give the same text, one code unit per byte. *)
Theorem ascii_stream_any_chunking (chunks chunks' : list (list Byte.byte)) :
  ascii (concat chunks) →
  concat chunks' = concat chunks →
  accumulate [] chunks' = accumulate [] chunks
  ∧ accumulate [] chunks = map Byte.to_N (concat chunks).
Proof.
  intros Hascii Hsame.
  assert (∀ cs : list (list Byte.byte),
            ascii (concat cs) →
            accumulate [] cs = map Byte.to_N (concat cs)) as Hone.
  { intros cs Hcs. rewrite accumulate_concat. simpl.
    induction cs as [|value rest IH]; [done|]. simpl in *.
    apply Forall_app in Hcs as [Hvalue Hrest].
    by rewrite (decode_ascii value Hvalue), (IH Hrest), map_app. }
  split; [|by apply Hone].
  rewrite (Hone chunks Hascii), <- Hsame. apply Hone. by rewrite Hsame.
Qed.

Lemma ascii_stream_any_chunking_witness :
  accumulate [] [Run.bytes "mod"; Run.bytes "ule"]
  = accumulate [] [Run.bytes "module"]
  ∧ accumulate [] [Run.bytes "module"] = str "module".
Proof.
  apply (ascii_stream_any_chunking
           [Run.bytes "module"] [Run.bytes "mod"; Run.bytes "ule"]).
  - unfold ascii. repeat constructor.
  - reflexivity.
Defined.

(** ** The script address *)

(** X23.  The address of the compiler script is never the empty string: a
    missing or empty environment value gives the default address, any other
    value is taken as it is. *)
Theorem script_address_is_set (h : Host) :
  truthy (BABEL_CDN_URL h) = true
  ∧ (∀ url, env_BABEL_CDN_URL h = Some url → truthy url = true →
       BABEL_CDN_URL h = url)
  ∧ (env_BABEL_CDN_URL h = None ∨ env_BABEL_CDN_URL h = Some [] →
       BABEL_CDN_URL h
       = str "https://cdnjs.cloudflare.com/ajax/libs/babel-standalone/7.26.1/babel.min.js").
Proof.
  unfold BABEL_CDN_URL. split; [|split].
  - destruct (env_BABEL_CDN_URL h) as [url|]; [|done].
    by destruct (truthy url) eqn:Hurl.
  - by intros url -> ->.
  - by intros [->| ->].
Qed.

Lemma script_address_is_set_witness :
  let h := mkHost (Some (str "https://example.org/babel.js")) true None
             Run.engine (λ _, Normal ()) (NetworkFault []) (λ _, Normal ()) in
  BABEL_CDN_URL h = str "https://example.org/babel.js".
Proof.
  intros h.
  apply (proj1 (proj2 (script_address_is_set h))
           (str "https://example.org/babel.js")); reflexivity.
Defined.

(** ** What is shown *)

(** [commonPrompts], lines 245-249, and the options of the data list,
    lines 283-288, each with its React key. *)
Definition commonPrompts : list JSString :=
  [str "Add a button"; str "Change color scheme"; str "Optimize performance"].

Definition options (s : State) : list (nat * JSString) :=
  imap (λ index prompt, (index, prompt)) commonPrompts
  ++ imap (λ index prompt, (index + length commonPrompts, prompt)%nat)
       (customPrompts s).

Lemma imap_keys (l : list JSString) (k : nat) :
  (imap (λ index prompt, (index + k, prompt)%nat) l).*1 = seq k (length l)
  ∧ (imap (λ index prompt, (index + k, prompt)%nat) l).*2 = l.
Proof.
  revert k. induction l as [|x l IH]; intros k; [done|].
  rewrite imap_cons, !fmap_cons.
  assert (imap ((λ index prompt, ((index + k)%nat, prompt)) ∘ S) l
          = imap (λ index prompt, ((index + S k)%nat, prompt)) l) as ->.
  { apply imap_ext. intros i y _. simpl. f_equal. lia. }
  destruct (IH (S k)) as [-> ->]. done.
Qed.

(** X24.  The options offered for the instruction are the three built-in
    prompts followed by the saved ones, repeated ones included, and their
    keys are 0, 1, 2, ... without a gap or a repeat. *)
Theorem option_keys_are_distinct (s : State) :
  (options s).*1 = seq 0 (3 + length (customPrompts s))
  ∧ NoDup (options s).*1
  ∧ (options s).*2 = commonPrompts ++ customPrompts s.
Proof.
  assert ((options s).*1 = seq 0 (3 + length (customPrompts s))) as Hkeys.
  { unfold options. rewrite fmap_app.
    rewrite (proj1 (imap_keys (customPrompts s) (length commonPrompts))).
    simpl. done. }
  split; [exact Hkeys|]. split.
  - rewrite Hkeys. apply NoDup_seq.
  - unfold options. rewrite fmap_app.
    by rewrite (proj2 (imap_keys (customPrompts s) (length commonPrompts))).
Qed.

Lemma updateWithAI_unshown (h : Host) (w : World) (message : JSString) :
  truthy (trim (aiPrompt (state w))) = false ∨ rejected h message →
  loadingStatus (after (updateWithAI h) w) = loadingStatus (state w)
  ∧ ∃ recorded,
      error (after (updateWithAI h) w) = Some recorded
      ∧ truthy recorded = true.
Proof.
  intros Hcase. run.
  destruct (truthy (trim (aiPrompt (state w)))) eqn:Hprompt; simpl.
  - destruct Hcase as [?|Hrejected]; [done|].
    destruct Hrejected as [m Hresp|status chunks fault Hresp
                          |status chunks m Hresp|status chunks Hresp Hmarkup];
      rewrite Hresp; simpl; rewrite ?Hmarkup; simpl; eauto.
  - eauto.
Qed.

(** X25.  A message recorded by a submission that is blank or fails before
    the syntax check is not shown while the status is "idle" or "loading":
    the panel keeps showing the loading content, although [error] holds the
    message. *)
Theorem early_failure_is_not_shown (h : Host) (w : World) (message : JSString) :
  loadingStatus (state w) = Status.idle
  ∨ loadingStatus (state w) = Status.loading →
  truthy (trim (aiPrompt (state w))) = false ∨ rejected h message →
  let s' := after (updateWithAI h) w in
  (∃ recorded, error s' = Some recorded ∧ truthy recorded = true)
  ∧ panel s' = LoadingContent (loadingStatus (state w)).
Proof.
  intros Hstatus Hcase s'. subst s'.
  destruct (updateWithAI_unshown h w message Hcase) as [Hkept Hrecorded].
  split; [exact Hrecorded|].
  unfold panel. rewrite Hkept. by destruct Hstatus as [-> | ->].
Qed.

Lemma early_failure_is_not_shown_witness :
  let w := exec (commitPrompt (str "Add a button")) Run.fresh in
  let s' := after (updateWithAI Run.offline) w in
  (∃ recorded, error s' = Some recorded ∧ truthy recorded = true)
  ∧ panel s' = LoadingContent Status.idle.
Proof.
  apply (early_failure_is_not_shown Run.offline
           (exec (commitPrompt (str "Add a button")) Run.fresh)
           (str "Failed to fetch")).
  - left. reflexivity.
  - right. apply rejected_fault. reflexivity.
Defined.

(** ** Retries in a row *)

Lemma retries_app (p : ComponentProps) (hs hs' : list Host) (w : World) :
  retries p (hs ++ hs') w = retries p hs' (retries p hs w).
Proof. unfold retries. apply foldl_app. Qed.

(** X26.  Of every six retries in a row that start from a count of zero,
    five run a render cycle and the sixth only resets the count: after six
    times [k] retries the count is zero again and [renderComponent] has been
    called five times [k] times. *)
Theorem sixth_retry_is_swallowed (p : ComponentProps) (k : nat)
    (hs : list Host) (w : World) :
  retryCount (state w) = 0%Z →
  length hs = (6 * k)%nat →
  retryCount (state (retries p hs w)) = 0%Z
  ∧ renders (retries p hs w) = (renders w + 5 * k)%nat.
Proof.
  revert hs w. induction k as [|k IH]; intros hs w Hzero Hlen.
  - destruct hs; [|done]. simpl. split; [done|lia].
  - assert (length (take 5 hs) = 5%nat) as H5 by (rewrite length_take; lia).
    assert (length (drop 5 hs) = S (6 * k)) as H6
      by (rewrite length_drop; lia).
    rewrite <- (take_drop 5 hs).
    destruct (drop 5 hs) as [|h6 rest]; simpl in H6; [lia|].
    rewrite retries_app.
    destruct (retries_below p (take 5 hs) w) as [Hcount Hrenders].
    { rewrite Hzero, H5. unfold MAX_RETRIES. lia. }
    rewrite Hzero, H5 in Hcount. rewrite H5 in Hrenders.
    set (w5 := retries p (take 5 hs) w) in *.
    change (retries p (h6 :: rest) w5)
      with (retries p rest (exec (handleRetry h6 p) w5)).
    rewrite (handleRetry_ceiling h6 p w5) by (by rewrite Hcount).
    set (w6 := mkWorld _ _ _ _ _).
    destruct (IH rest w6) as [IHcount IHrenders]; [done|lia|].
    rewrite IHcount, IHrenders. split; [done|].
    change (renders w6) with (renders w5). lia.
Qed.

Lemma sixth_retry_is_swallowed_witness :
  let w := retries Run.props (replicate 12 Run.offline) Run.rendered in
  retryCount (state w) = 0%Z ∧ renders w = (renders Run.rendered + 5 * 2)%nat.
Proof.
  apply (sixth_retry_is_swallowed Run.props 2 (replicate 12 Run.offline)
           Run.rendered); reflexivity.
Defined.
